(** * The Demikernel HTTP-server example ([examples/c/http-server.c])

    A shallow embedding of [main]: the set-up of the listening socket and
    the reactor loop that waits for a completion and dispatches on its
    opcode.  The Demikernel library is the environment: every call the
    program makes is recorded in a trace, and what the call returns (its
    status and its output arguments) is read from an environment record.
    The file does not define [NDEBUG]: every [assert] evaluates its
    argument and calls [abort] when it is zero. *)

From Stdlib Require Import ZArith Lia.
From stdpp Require Import numbers list strings.

Local Open Scope Z_scope.

(** ** Constants *)

(** [#define NQTOKEN 1024] (line 16). *)
Definition NQTOKEN : Z := 1024.

(** [EXIT_SUCCESS] of the C standard library. *)
Definition EXIT_SUCCESS : Z := 0.

(** The constants the program takes from headers that are not part of the
    source tree ([demi/types.h], [sys/socket.h]).  The development is
    parametric in them. *)
Class DemiHeader : Type := {
  DEMI_OPC_ACCEPT : Z;
  DEMI_OPC_POP : Z;
  AF_INET : Z;
  SOCK_STREAM : Z
}.

(** ** Data *)

(** [struct sockaddr_in], with the 16-bit port as the host reads it. *)
Record sockaddr_in : Type := {
  sin_family : Z;
  sin_port : Z;
  sin_addr : Z
}.

(** One scatter-gather segment: the bytes [sgaseg_buf] points to and the
    length the transport reports for them. *)
Record demi_sgaseg_t : Type := {
  sgaseg_buf : string;
  sgaseg_len : Z
}.

(** Modelled from the spec: [demi_sgarray_t] is declared in [demi/sga.h],
    which is not in the source tree.  The spec describes it as a sequence of
    (pointer, length) segments.  The program uses its member [sga_segs] as a
    pointer: it compares it with 0 and then indexes it at 0.  [sga_segs] is
    [None] for a null pointer and [Some slots] for the storage it designates;
    [sga_numsegs] is the number of segments the transport filled in.  Where
    the header declares [sga_segs] as an array member, its value is never
    [None] and a completion without segments is one with [sga_numsegs = 0]
    over the storage of the array. *)
Record demi_sgarray_t : Type := {
  sga_numsegs : Z;
  sga_segs : option (list demi_sgaseg_t)
}.

(** The segments a scatter-gather array carries. *)
Definition sga_segments (sga : demi_sgarray_t) : list demi_sgaseg_t :=
  match sga_segs sga with
  | None => []
  | Some slots => take (Z.to_nat (sga_numsegs sga)) slots
  end.

(** [demi_qresult_t]: the opcode, the queue the operation was issued on, its
    token, and the two views of the [qr_value] union the program reads. *)
Record demi_qresult_t : Type := {
  qr_opcode : Z;
  qr_qd : Z;
  qr_qt : Z;
  qr_value_ares_qd : Z;
  qr_value_sga : demi_sgarray_t
}.

(** The local variables of [main] (lines 20-25). *)
Record state : Type := {
  saddr : sockaddr_in;
  sockqd : Z;
  qts : list Z;
  nqts : Z;
  qr : demi_qresult_t;
  offset : Z
}.

Definition set_saddr (a : sockaddr_in) (st : state) : state :=
  {| saddr := a; sockqd := sockqd st; qts := qts st; nqts := nqts st;
     qr := qr st; offset := offset st |}.

Definition set_sockqd (qd : Z) (st : state) : state :=
  {| saddr := saddr st; sockqd := qd; qts := qts st; nqts := nqts st;
     qr := qr st; offset := offset st |}.

Definition set_qts (l : list Z) (st : state) : state :=
  {| saddr := saddr st; sockqd := sockqd st; qts := l; nqts := nqts st;
     qr := qr st; offset := offset st |}.

Definition set_nqts (n : Z) (st : state) : state :=
  {| saddr := saddr st; sockqd := sockqd st; qts := qts st; nqts := n;
     qr := qr st; offset := offset st |}.

Definition set_qr (r : demi_qresult_t) (off : Z) (st : state) : state :=
  {| saddr := saddr st; sockqd := sockqd st; qts := qts st; nqts := nqts st;
     qr := r; offset := off |}.

(** ** Calls and output *)

(** What the program does that the outside can see: the library calls with
    their arguments and the lines written to [stdout].  [demi_sgafree] is the
    call that gives a receive buffer back to the transport; the program's
    only mention of it is the commented-out line 53. *)
Inductive event : Type :=
| Call_inet_pton (af : Z) (src : string)
| Call_demi_init
| Call_demi_socket (domain type protocol : Z)
| Call_demi_bind (qd : Z) (addr : sockaddr_in)
| Call_demi_listen (qd backlog : Z)
| Call_demi_accept (slot qd : Z)
| Call_demi_wait_any (tokens : list Z) (num : Z)
| Call_demi_pop (slot qd : Z)
| Call_demi_sgafree (sga : demi_sgarray_t)
| Stdout_accept
| Stdout_recv (width : Z) (buf : string)
| Stdout_opcode (opcode : Z).

(** Accesses C gives no meaning to. *)
Inductive undefined_behaviour : Type :=
| Store_out_of_bounds (slot : Z)
| Read_out_of_bounds (index : Z).

(** Why a run does not go on: an [assert] failed at a line (the process is
    killed by [abort]), the program left defined behaviour, or it is blocked
    in [demi_wait_any] at the head of the loop with no completion given yet. *)
Inductive stop : Type :=
| AssertFail (line : Z)
| Undefined (u : undefined_behaviour)
| Blocked (st : state).

Inductive result (A : Type) : Type :=
| Ok (a : A)
| Stop (s : stop).
Arguments Ok {A} a.
Arguments Stop {A} s.

(** A computation: the events so far and how it ended. *)
Definition M (A : Type) : Type := (list event * result A)%type.

Definition ret {A : Type} (a : A) : M A := ([], Ok a).

Definition bind {A B : Type} (m : M A) (k : A -> M B) : M B :=
  match m with
  | (t, Ok a) => let '(t', r) := k a in (t ++ t', r)
  | (t, Stop s) => (t, Stop s)
  end.

Notation "'do' x <- m ; k" := (bind m (fun x => k))
  (at level 10, x name, m at level 100, k at level 200).

Definition emit (e : event) : M unit := ([e], Ok tt).

Definition halt {A : Type} (s : stop) : M A := ([], Stop s).

(** [assert(e)] at a line of the source. *)
Definition assert_at (line : Z) (b : bool) : M unit :=
  if b then ret tt else halt (AssertFail line).

(** [p != 0] for a pointer [p]. *)
Definition non_null {A : Type} (p : option A) : bool :=
  match p with Some _ => true | None => false end.

(** ** The environment *)

(** What the calls of the set-up return. *)
Record setup_env : Type := {
  inet_pton_ret : Z;
  inet_pton_addr : Z;
  demi_init_ret : Z;
  demi_socket_ret : Z;
  demi_socket_qd : Z;
  demi_bind_ret : Z;
  demi_listen_ret : Z;
  demi_accept_ret : Z;
  demi_accept_qt : Z
}.

(** What the calls of one loop iteration return: [demi_wait_any] with the
    completion and the index it reports, and [demi_pop] with its token. *)
Record iter_env : Type := {
  demi_wait_any_ret : Z;
  wait_qr : demi_qresult_t;
  wait_offset : Z;
  demi_pop_ret : Z;
  demi_pop_qt : Z
}.

(** ** The program *)

(** A library call that hands a token back through [&qts[slot]]: the
    library writes the token when it succeeds.  [qts] has [NQTOKEN] slots;
    a store outside them is undefined. *)
Definition store_qt (ret_code slot qt : Z) (st : state) : M state :=
  if ret_code =? 0 then
    if (0 <=? slot) && (slot <? NQTOKEN)
    then ret (set_qts (<[Z.to_nat slot := qt]> (qts st)) st)
    else halt (Undefined (Store_out_of_bounds slot))
  else ret st.

(** Lines 20-25: the initial values of the locals.  [qts = {-1}] sets slot 0
    to -1 and the other slots to 0. *)
Definition init_state : state :=
  {| saddr := {| sin_family := 0; sin_port := 0; sin_addr := 0 |};
     sockqd := -1;
     qts := (-1) :: replicate (Z.to_nat (NQTOKEN - 1)) 0;
     nqts := 1;
     qr := {| qr_opcode := 0; qr_qd := 0; qr_qt := 0; qr_value_ares_qd := 0;
              qr_value_sga := {| sga_numsegs := 0; sga_segs := None |} |};
     offset := -1 |}.

Section Program.
Context `{DemiHeader}.

(** Lines 28-30: the address.  The port is assigned as the literal 9050;
    [sin_port] is 16 bits wide. *)
Definition prepare_addr (e : setup_env) (st : state) : M state :=
  let a := saddr st in
  let a := {| sin_family := AF_INET; sin_port := sin_port a;
              sin_addr := sin_addr a |} in
  let a := {| sin_family := sin_family a; sin_port := 9050 mod 2 ^ 16;
              sin_addr := sin_addr a |} in
  do _ <- emit (Call_inet_pton AF_INET "0.0.0.0");
  let a := {| sin_family := sin_family a; sin_port := sin_port a;
              sin_addr := inet_pton_addr e |} in
  do _ <- assert_at 30 (inet_pton_ret e =? 1);
  ret (set_saddr a st).

(** Lines 33-39: initialise the library, create, bind and listen on the
    socket, issue the first accept into [qts[0]]. *)
Definition setup (e : setup_env) : M state :=
  do st <- prepare_addr e init_state;
  do _ <- emit Call_demi_init;
  do _ <- assert_at 33 (demi_init_ret e =? 0);
  do _ <- emit (Call_demi_socket AF_INET SOCK_STREAM 0);
  let st := set_sockqd (demi_socket_qd e) st in
  do _ <- assert_at 36 (demi_socket_ret e =? 0);
  do _ <- emit (Call_demi_bind (sockqd st) (saddr st));
  do _ <- assert_at 37 (demi_bind_ret e =? 0);
  do _ <- emit (Call_demi_listen (sockqd st) 16);
  do _ <- assert_at 38 (demi_listen_ret e =? 0);
  do _ <- emit (Call_demi_accept 0 (sockqd st));
  do st <- store_qt (demi_accept_ret e) 0 (demi_accept_qt e) st;
  do _ <- assert_at 39 (demi_accept_ret e =? 0);
  ret st.

(** Lines 42-56: one iteration of the loop. *)
Definition loop_body (e : iter_env) (st : state) : M state :=
  do _ <- emit (Call_demi_wait_any (qts st) NQTOKEN);
  let st := set_qr (wait_qr e) (wait_offset e) st in
  do _ <- assert_at 42 (demi_wait_any_ret e =? 0);
  if qr_opcode (qr st) =? DEMI_OPC_ACCEPT then
    do _ <- emit Stdout_accept;
    let slot := nqts st in
    let st := set_nqts (nqts st + 1) st in
    do _ <- emit (Call_demi_pop slot (qr_value_ares_qd (qr st)));
    do st <- store_qt (demi_pop_ret e) slot (demi_pop_qt e) st;
    do _ <- assert_at 46 (demi_pop_ret e =? 0);
    ret st
  else if qr_opcode (qr st) =? DEMI_OPC_POP then
    do _ <- assert_at 49 (non_null (sga_segs (qr_value_sga (qr st))));
    match sga_segs (qr_value_sga (qr st)) with
    | Some slots =>
        match slots !! 0%nat with
        | Some seg =>
            do _ <- emit (Stdout_recv (sgaseg_len seg) (sgaseg_buf seg));
            ret st
        | None => halt (Undefined (Read_out_of_bounds 0))
        end
    | None => halt (Undefined (Read_out_of_bounds 0))
    end
  else
    do _ <- emit (Stdout_opcode (qr_opcode (qr st)));
    ret st.

(** [while (cond) body]: each iteration consumes what the environment
    answers to its calls; with no answer left the program is blocked at
    the head of the loop.  A call is an event of the trace once it has
    returned: the call of [demi_wait_any] in which the program is blocked
    is the [Blocked] stop, not an event. *)
Fixpoint while_loop (cond : state -> bool)
    (body : iter_env -> state -> M state)
    (es : list iter_env) (st : state) : M state :=
  if cond st then
    match es with
    | [] => halt (Blocked st)
    | e :: es' => do st' <- body e st; while_loop cond body es' st'
    end
  else ret st.

(** Lines 41-57: [while (1) { ... }]. *)
Definition reactor (es : list iter_env) (st : state) : M state :=
  while_loop (fun _ => true) loop_body es st.

(** [main]: the set-up, the loop, and [return (EXIT_SUCCESS)] (line 59).
    [Ok status] is a return from [main] with that status. *)
Definition main (se : setup_env) (es : list iter_env) : M Z :=
  do st <- setup se;
  do _ <- reactor es st;
  ret EXIT_SUCCESS.

End Program.

(** ** Observations on traces *)

(** The receive completions handed to the application: one [recv:] line
    each. *)
Definition is_recv (ev : event) : bool :=
  match ev with Stdout_recv _ _ => true | _ => false end.

(** The buffers given back to the transport: one [demi_sgafree] call each. *)
Definition is_release (ev : event) : bool :=
  match ev with Call_demi_sgafree _ => true | _ => false end.

Definition is_wait_any (ev : event) : bool :=
  match ev with Call_demi_wait_any _ _ => true | _ => false end.

Definition is_accept_call (ev : event) : bool :=
  match ev with Call_demi_accept _ _ => true | _ => false end.

Definition is_pop_call_on (qd : Z) (ev : event) : bool :=
  match ev with Call_demi_pop _ qd' => qd' =? qd | _ => false end.

Definition count (p : event -> bool) (t : list event) : nat :=
  length (filter (fun ev => p ev = true) t).

(** The arguments of the calls of [demi_wait_any], in order: the token
    array and the number of tokens. *)
Fixpoint wait_calls (t : list event) : list (list Z * Z) :=
  match t with
  | [] => []
  | Call_demi_wait_any toks num :: t' => (toks, num) :: wait_calls t'
  | _ :: t' => wait_calls t'
  end.

(** What can stop the loop of lines 41-57 once it runs: the assertions of
    lines 42, 46 and 49, a token stored outside [qts], the read of segment 0
    where there is none; otherwise the program waits for a completion. *)
Definition loop_stop (s : stop) : Prop :=
  match s with
  | Blocked _ => True
  | AssertFail line => line ∈ [42; 46; 49]
  | Undefined (Store_out_of_bounds slot) => ~ (0 <= slot < NQTOKEN)
  | Undefined (Read_out_of_bounds index) => index = 0
  end.

(** ** Byte order *)

Inductive byte_order : Type := LittleEndian | BigEndian.

(** Swap the two bytes of a 16-bit value. *)
Definition bswap16 (x : Z) : Z :=
  Z.lor (Z.shiftl (Z.land x 255) 8) (Z.land (Z.shiftr x 8) 255).

(** POSIX [htons] on a host of the given byte order. *)
Definition htons (host : byte_order) (x : Z) : Z :=
  match host with
  | LittleEndian => bswap16 x
  | BigEndian => x mod 2 ^ 16
  end.

(** The port number a peer has to connect to when the host stored [port] in
    [sin_port]: the two bytes of the field read in network order ([ntohs],
    the same exchange of bytes as [htons]). *)
Definition port_on_wire (host : byte_order) (port : Z) : Z := htons host port.

(** ** Sample inputs *)

(** Header values for the closed examples: the opcodes in the order of
    upstream's [demi_opcode_t] enumeration and the socket constants of
    Linux.  The theorems hold for every header. *)
Definition sample_header : DemiHeader :=
  {| DEMI_OPC_ACCEPT := 3; DEMI_OPC_POP := 2; AF_INET := 2; SOCK_STREAM := 1 |}.

(** A set-up in which every call succeeds: the socket is queue 4 and the
    first accept has token 100. *)
Definition setup_ok : setup_env :=
  {| inet_pton_ret := 1; inet_pton_addr := 0; demi_init_ret := 0;
     demi_socket_ret := 0; demi_socket_qd := 4; demi_bind_ret := 0;
     demi_listen_ret := 0; demi_accept_ret := 0; demi_accept_qt := 100 |}.

(** A set-up in which [demi_bind] fails. *)
Definition setup_bind_fails : setup_env :=
  {| inet_pton_ret := 1; inet_pton_addr := 0; demi_init_ret := 0;
     demi_socket_ret := 0; demi_socket_qd := 4; demi_bind_ret := 98;
     demi_listen_ret := 0; demi_accept_ret := 0; demi_accept_qt := 100 |}.

(** The locals after [setup_ok]. *)
Definition state_after_setup : state :=
  {| saddr := {| sin_family := 2; sin_port := 9050; sin_addr := 0 |};
     sockqd := 4;
     qts := 100 :: replicate 1023 0;
     nqts := 1;
     qr := qr init_state;
     offset := -1 |}.

Definition empty_sga : demi_sgarray_t :=
  {| sga_numsegs := 0; sga_segs := None |}.

(** The accept of token 100 completes at index 0 with the new queue 5; the
    receive issued on it gets token 200. *)
Definition accept_completion : iter_env :=
  {| demi_wait_any_ret := 0;
     wait_qr := {| qr_opcode := 3; qr_qd := 4; qr_qt := 100;
                   qr_value_ares_qd := 5; qr_value_sga := empty_sga |};
     wait_offset := 0;
     demi_pop_ret := 0; demi_pop_qt := 200 |}.

(** The receive of token 200 on queue 5 completes at index 1 with one
    segment holding [hello]. *)
Definition recv_completion : iter_env :=
  {| demi_wait_any_ret := 0;
     wait_qr := {| qr_opcode := 2; qr_qd := 5; qr_qt := 200;
                   qr_value_ares_qd := 0;
                   qr_value_sga :=
                     {| sga_numsegs := 1;
                        sga_segs := Some [ {| sgaseg_buf := "hello";
                                              sgaseg_len := 5 |} ] |} |};
     wait_offset := 1;
     demi_pop_ret := 0; demi_pop_qt := 0 |}.

(** A receive completion with no segment and a null segment pointer. *)
Definition recv_completion_no_segs : iter_env :=
  {| demi_wait_any_ret := 0;
     wait_qr := {| qr_opcode := 2; qr_qd := 5; qr_qt := 200;
                   qr_value_ares_qd := 0; qr_value_sga := empty_sga |};
     wait_offset := 1;
     demi_pop_ret := 0; demi_pop_qt := 0 |}.

(** A receive completion with no segment whose segment storage is there:
    slot 0 holds what an earlier receive left. *)
Definition recv_completion_zero_count : iter_env :=
  {| demi_wait_any_ret := 0;
     wait_qr := {| qr_opcode := 2; qr_qd := 5; qr_qt := 200;
                   qr_value_ares_qd := 0;
                   qr_value_sga :=
                     {| sga_numsegs := 0;
                        sga_segs := Some [ {| sgaseg_buf := "stale";
                                              sgaseg_len := 5 |} ] |} |};
     wait_offset := 1;
     demi_pop_ret := 0; demi_pop_qt := 0 |}.

(** A completion of a kind the program has no branch for (opcode 1). *)
Definition push_completion : iter_env :=
  {| demi_wait_any_ret := 0;
     wait_qr := {| qr_opcode := 1; qr_qd := 5; qr_qt := 300;
                   qr_value_ares_qd := 0; qr_value_sga := empty_sga |};
     wait_offset := 2;
     demi_pop_ret := 0; demi_pop_qt := 0 |}.

(** The locals after [accept_completion]. *)
Definition state_after_accept : state :=
  {| saddr := saddr state_after_setup;
     sockqd := 4;
     qts := 100 :: 200 :: replicate 1022 0;
     nqts := 2;
     qr := wait_qr accept_completion;
     offset := 0 |}.

(** The locals once 1023 accepts have completed: every slot of [qts] holds
    a token and [nqts] is [NQTOKEN]. *)
Definition state_full : state :=
  {| saddr := saddr state_after_setup;
     sockqd := 4;
     qts := 100 :: replicate 1023 200;
     nqts := 1024;
     qr := wait_qr accept_completion;
     offset := 0 |}.

(** ** The claims the program does not meet, as the specification words them *)

Section AsStated.
Context `{DemiHeader}.

(** On an Accept completion the handler issues a receive on the new
    connection and a fresh accept on the listening socket. *)
Definition accept_rearms_listening (e : iter_env) (st : state) : Prop :=
  demi_wait_any_ret e = 0 ->
  qr_opcode (wait_qr e) = DEMI_OPC_ACCEPT ->
  demi_pop_ret e = 0 ->
  0 <= nqts st < NQTOKEN ->
  (1 <= count (is_pop_call_on (qr_value_ares_qd (wait_qr e)))
          (fst (loop_body e st)))%nat /\
  (1 <= count is_accept_call (fst (loop_body e st)))%nat.

(** On a Receive completion with a payload the dispatcher issues a new
    receive on the same connection. *)
Definition receive_rearms_connection (e : iter_env) (st : state) : Prop :=
  demi_wait_any_ret e = 0 ->
  qr_opcode (wait_qr e) <> DEMI_OPC_ACCEPT ->
  qr_opcode (wait_qr e) = DEMI_OPC_POP ->
  sga_segments (qr_value_sga (wait_qr e)) <> [] ->
  (1 <= count (is_pop_call_on (qr_qd (wait_qr e)))
          (fst (loop_body e st)))%nat.

(** A Receive completion without segments is handled without reading a
    segment and the loop goes on. *)
Definition empty_payload_handled (e : iter_env) (st : state) : Prop :=
  demi_wait_any_ret e = 0 ->
  qr_opcode (wait_qr e) <> DEMI_OPC_ACCEPT ->
  qr_opcode (wait_qr e) = DEMI_OPC_POP ->
  sga_segments (qr_value_sga (wait_qr e)) = [] ->
  (exists st', snd (loop_body e st) = Ok st') /\
  count is_recv (fst (loop_body e st)) = 0%nat.

(** The token whose completion a wait call reports at an index is not
    among the tokens of the next wait call. *)
Definition completed_token_dropped (e e' : iter_env) (st : state) : Prop :=
  forall (toks toks' : list Z) (num num' t : Z),
    wait_calls (fst (reactor [e; e'] st)) = [(toks, num); (toks', num')] ->
    toks !! Z.to_nat (wait_offset e) = Some t ->
    t ∉ toks'.

(** Once the loop runs, the process ends by a failed assertion only: a run
    that is not waiting for a completion has been stopped by an [assert]. *)
Definition loop_ends_by_assertion_only (es : list iter_env) (st : state) : Prop :=
  forall s, snd (reactor es st) = Stop s ->
    (exists st', s = Blocked st') \/ (exists line, s = AssertFail line).

End AsStated.

(** ** Vocabulary for the properties of the whole run *)

Section Derived.
Context `{DemiHeader}.

(** The completions the first branch of the dispatch takes (line 43), and
    those the second takes (line 47). *)
Definition is_accept_completion (e : iter_env) : bool :=
  qr_opcode (wait_qr e) =? DEMI_OPC_ACCEPT.

Definition is_pop_completion (e : iter_env) : bool :=
  negb (is_accept_completion e) && (qr_opcode (wait_qr e) =? DEMI_OPC_POP).

(** The library calls of lines 30 to 39, in the order of the source. *)
Definition setup_calls (se : setup_env) : list event :=
  [ Call_inet_pton AF_INET "0.0.0.0";
    Call_demi_init;
    Call_demi_socket AF_INET SOCK_STREAM 0;
    Call_demi_bind (demi_socket_qd se)
      {| sin_family := AF_INET; sin_port := 9050; sin_addr := inet_pton_addr se |};
    Call_demi_listen (demi_socket_qd se) 16;
    Call_demi_accept 0 (demi_socket_qd se) ].

(** The locals when the set-up has gone through. *)
Definition state_of_setup (se : setup_env) : state :=
  {| saddr := {| sin_family := AF_INET; sin_port := 9050;
                 sin_addr := inet_pton_addr se |};
     sockqd := demi_socket_qd se;
     qts := demi_accept_qt se :: replicate (Z.to_nat (NQTOKEN - 1)) 0;
     nqts := 1;
     qr := qr init_state;
     offset := -1 |}.

End Derived.


(** Segment 0 of a scatter-gather array, where it can be read. *)
Definition segment0 (sga : demi_sgarray_t) : option demi_sgaseg_t :=
  match sga_segs sga with
  | Some slots => slots !! 0%nat
  | None => None
  end.

Definition is_stdout_accept (ev : event) : bool :=
  match ev with Stdout_accept => true | _ => false end.

Definition is_pop_call (ev : event) : bool :=
  match ev with Call_demi_pop _ _ => true | _ => false end.

Definition is_stdout (ev : event) : bool :=
  match ev with
  | Stdout_accept | Stdout_recv _ _ | Stdout_opcode _ => true
  | _ => false
  end.

(** The events of the loop: waiting, issuing a receive, printing. *)
Definition is_loop_event (ev : event) : bool :=
  match ev with
  | Call_demi_wait_any _ _ | Call_demi_pop _ _ => true
  | _ => is_stdout ev
  end.

(** The receives issued, in order: the slot the token goes to and the
    queue. *)
Fixpoint pop_calls (t : list event) : list (Z * Z) :=
  match t with
  | [] => []
  | Call_demi_pop slot qd :: t' => (slot, qd) :: pop_calls t'
  | _ :: t' => pop_calls t'
  end.

(** Two ends of an iteration that differ at most in the completion record
    kept in [qr] and [offset]. *)
Definition same_tokens (r r' : result state) : Prop :=
  match r, r' with
  | Ok a, Ok b =>
      qts a = qts b /\ nqts a = nqts b /\ saddr a = saddr b /\ sockqd a = sockqd b
  | Stop s, Stop s' => s = s'
  | _, _ => False
  end.

(** An answer of the environment with another completion index, and with
    another segment count. *)
Definition with_offset (off : Z) (e : iter_env) : iter_env :=
  {| demi_wait_any_ret := demi_wait_any_ret e; wait_qr := wait_qr e;
     wait_offset := off; demi_pop_ret := demi_pop_ret e;
     demi_pop_qt := demi_pop_qt e |}.

Definition with_numsegs (n : Z) (e : iter_env) : iter_env :=
  {| demi_wait_any_ret := demi_wait_any_ret e;
     wait_qr :=
       {| qr_opcode := qr_opcode (wait_qr e); qr_qd := qr_qd (wait_qr e);
          qr_qt := qr_qt (wait_qr e);
          qr_value_ares_qd := qr_value_ares_qd (wait_qr e);
          qr_value_sga :=
            {| sga_numsegs := n;
               sga_segs := sga_segs (qr_value_sga (wait_qr e)) |} |};
     wait_offset := wait_offset e; demi_pop_ret := demi_pop_ret e;
     demi_pop_qt := demi_pop_qt e |}.

Section DerivedRuns.
Context `{DemiHeader}.

(** The accept completions among the answers of the environment. *)
Definition accept_completions (es : list iter_env) : list iter_env :=
  filter (fun e => is_accept_completion e = true) es.

(** When an iteration ends normally: the wait succeeded and, on an accept,
    the receive could be issued into a slot of the array; on a receive,
    segment 0 could be read. *)
Definition iteration_survives (e : iter_env) (st : state) : Prop :=
  demi_wait_any_ret e = 0 /\
  if is_accept_completion e
  then demi_pop_ret e = 0 /\ 0 <= nqts st < NQTOKEN
  else if is_pop_completion e
       then is_Some (segment0 (qr_value_sga (wait_qr e)))
       else True.

End DerivedRuns.

(** * Properties *)

(** ** Sanity checks of the model on the sample inputs *)

Example setup_ok_runs :
  snd (@setup sample_header setup_ok) = Ok state_after_setup.
Proof. vm_compute. reflexivity. Qed.

Example state_full_reached :
  snd (@reactor sample_header (replicate 1023 accept_completion) state_after_setup)
  = Stop (Blocked state_full).
Proof. vm_compute. reflexivity. Qed.

Example state_after_accept_reached :
  snd (@reactor sample_header [accept_completion] state_after_setup)
  = Stop (Blocked state_after_accept).
Proof. vm_compute. reflexivity. Qed.

Example session_trace :
  fst (@reactor sample_header [accept_completion; recv_completion; push_completion]
         (set_qts [100; 0; 0] state_after_setup))
  = [ Call_demi_wait_any [100; 0; 0] 1024; Stdout_accept; Call_demi_pop 1 5;
      Call_demi_wait_any [100; 200; 0] 1024; Stdout_recv 5 "hello";
      Call_demi_wait_any [100; 200; 0] 1024; Stdout_opcode 1 ].
Proof. vm_compute. reflexivity. Qed.

Ltac unfold_step :=
  unfold loop_body, store_qt, assert_at, bind, emit, halt, ret.

Ltac unfold_setup :=
  unfold setup, prepare_addr, store_qt, assert_at, bind, emit, halt, ret.

Section Proofs.
Context `{DemiHeader}.

(** *** The monad and the loop *)

Lemma bind_ok {A B : Type} (m : M A) (k : A -> M B) (t : list event) (a : A) :
  m = (t, Ok a) -> bind m k = (t ++ fst (k a), snd (k a)).
Proof. intros ->. unfold bind. destruct (k a); reflexivity. Qed.

Lemma bind_stop {A B : Type} (m : M A) (k : A -> M B) (t : list event) (s : stop) :
  m = (t, Stop s) -> bind m k = (t, Stop s).
Proof. intros ->. reflexivity. Qed.

Lemma reactor_nil (st : state) : reactor [] st = ([], Stop (Blocked st)).
Proof. reflexivity. Qed.

Lemma reactor_cons (e : iter_env) (es : list iter_env) (st : state) :
  reactor (e :: es) st = bind (loop_body e st) (reactor es).
Proof. reflexivity. Qed.

(** One iteration either goes on with a state or stops; both unfold the
    loop by one step. *)
Lemma reactor_step_ok e es st t st' :
  loop_body e st = (t, Ok st') ->
  reactor (e :: es) st = (t ++ fst (reactor es st'), snd (reactor es st')).
Proof. intros Hb. rewrite reactor_cons. exact (bind_ok _ _ _ _ Hb). Qed.

Lemma reactor_step_stop e es st t s :
  loop_body e st = (t, Stop s) -> reactor (e :: es) st = (t, Stop s).
Proof. intros Hb. rewrite reactor_cons. exact (bind_stop _ _ _ _ Hb). Qed.

(** *** Counting events *)

Lemma count_app (p : event -> bool) (t t' : list event) :
  count p (t ++ t') = (count p t + count p t')%nat.
Proof. unfold count. rewrite filter_app, length_app. reflexivity. Qed.

Lemma wait_calls_app (t t' : list event) :
  wait_calls (t ++ t') = wait_calls t ++ wait_calls t'.
Proof.
  induction t as [|ev t IH]; [reflexivity|].
  destruct ev; cbn [wait_calls app]; rewrite ?IH; reflexivity.
Qed.

(** *** One iteration *)

(** Every iteration starts with one call of [demi_wait_any] on the whole
    array, and makes no other. *)
Lemma loop_body_wait_calls e st :
  wait_calls (fst (loop_body e st)) = [(qts st, NQTOKEN)].
Proof. unfold_step. repeat case_match; simplify_eq; reflexivity. Qed.

(** No iteration calls [demi_sgafree] or [demi_accept]. *)
Lemma loop_body_no_release e st : count is_release (fst (loop_body e st)) = 0%nat.
Proof. unfold_step. repeat case_match; simplify_eq; reflexivity. Qed.

Lemma loop_body_no_accept e st : count is_accept_call (fst (loop_body e st)) = 0%nat.
Proof. unfold_step. repeat case_match; simplify_eq; reflexivity. Qed.

(** An iteration that goes on keeps every slot below [nqts] and never
    lowers [nqts]. *)
Lemma loop_body_keeps_tokens e st st' :
  snd (loop_body e st) = Ok st' ->
  nqts st <= nqts st' /\
  forall i, 0 <= i < nqts st -> qts st' !! Z.to_nat i = qts st !! Z.to_nat i.
Proof.
  unfold_step. cbn [qr set_qr nqts set_nqts qts].
  repeat case_match; simplify_eq; cbn [snd];
    intros Hr; simplify_eq; cbn [nqts qts set_qts set_nqts set_qr];
    (split; [lia|]); intros i Hi; try reflexivity.
  apply list_lookup_insert_ne. lia.
Qed.

(** How an iteration can stop. *)
Lemma loop_body_stop e st s :
  snd (loop_body e st) = Stop s -> loop_stop s.
Proof.
  unfold_step. cbn [qr set_qr nqts set_nqts qts].
  repeat case_match; simplify_eq; cbn [snd]; intros Hr; simplify_eq;
    cbn [loop_stop]; rewrite ?elem_of_cons; auto.
  intros Hin.
  match goal with Hc : (_ && _) = false |- _ => apply andb_false_iff in Hc; destruct Hc; lia end.
Qed.

(** *** The whole loop *)

Lemma reactor_no_release es : forall st, count is_release (fst (reactor es st)) = 0%nat.
Proof.
  induction es as [|e es IH]; intros st; [reflexivity|].
  pose proof (loop_body_no_release e st) as Hn.
  destruct (loop_body e st) as [t [st'|s]] eqn:Hb.
  - rewrite (reactor_step_ok _ _ _ _ _ Hb). cbn [fst] in *.
    rewrite count_app, Hn, IH. reflexivity.
  - rewrite (reactor_step_stop _ _ _ _ _ Hb). exact Hn.
Qed.

Lemma reactor_no_accept es : forall st, count is_accept_call (fst (reactor es st)) = 0%nat.
Proof.
  induction es as [|e es IH]; intros st; [reflexivity|].
  pose proof (loop_body_no_accept e st) as Hn.
  destruct (loop_body e st) as [t [st'|s]] eqn:Hb.
  - rewrite (reactor_step_ok _ _ _ _ _ Hb). cbn [fst] in *.
    rewrite count_app, Hn, IH. reflexivity.
  - rewrite (reactor_step_stop _ _ _ _ _ Hb). exact Hn.
Qed.

(** A [while (1)] loop does not fall through, whatever its body. *)
Lemma while_true_no_fall_through (body : iter_env -> state -> M state) es :
  forall st, exists s, snd (while_loop (fun _ => true) body es st) = Stop s.
Proof.
  induction es as [|e es IH]; intros st; cbn [while_loop].
  - eexists. reflexivity.
  - destruct (body e st) as [t [st'|s]] eqn:Hb.
    + rewrite (bind_ok _ _ _ _ eq_refl). cbn [snd]. apply IH.
    + eexists. reflexivity.
Qed.

Lemma reactor_stops es : forall st, exists s, snd (reactor es st) = Stop s /\ loop_stop s.
Proof.
  induction es as [|e es IH]; intros st.
  - eexists. split; [reflexivity|exact I].
  - destruct (loop_body e st) as [t [st'|s]] eqn:Hb.
    + rewrite (reactor_step_ok _ _ _ _ _ Hb). cbn [snd]. apply IH.
    + rewrite (reactor_step_stop _ _ _ _ _ Hb). cbn [snd].
      exists s. split; [reflexivity|].
      apply (loop_body_stop e st). rewrite Hb. reflexivity.
Qed.

(** *** The set-up *)

(** The set-up makes no call of [demi_wait_any], and an assertion that
    fails in it is one of lines 30 to 39. *)
Lemma setup_wait_calls se : count is_wait_any (fst (setup se)) = 0%nat.
Proof. unfold_setup. repeat case_match; simplify_eq; reflexivity. Qed.

Lemma main_setup_stop se es t s :
  setup se = (t, Stop s) -> main se es = (t, Stop s).
Proof. intros Hs. unfold main. exact (bind_stop _ _ _ _ Hs). Qed.

Lemma main_setup_ok se es t st :
  setup se = (t, Ok st) ->
  exists s, main se es = (t ++ fst (reactor es st), Stop s)
            /\ snd (reactor es st) = Stop s /\ loop_stop s.
Proof.
  intros Hs. destruct (reactor_stops es st) as (s & Hr & Hl).
  exists s. split; [|auto].
  unfold main. rewrite (bind_ok _ _ _ _ Hs).
  destruct (reactor es st) as [t' r] eqn:Hre. cbn [fst snd] in *. subst r.
  rewrite (bind_stop _ _ _ _ eq_refl). reflexivity.
Qed.

(** C8.  When [demi_socket], [demi_bind] or [demi_listen] returns a
    non-zero status, an assertion of the set-up (lines 30 to 38) fails: the
    process is killed by [abort], which its parent never sees as a success
    status, and [demi_wait_any] has not been called, so the loop was not
    entered. *)
Theorem setup_failure_aborts_before_loop (se : setup_env) (es : list iter_env) :
  demi_socket_ret se <> 0 \/ demi_bind_ret se <> 0 \/ demi_listen_ret se <> 0 ->
  exists line,
    snd (main se es) = Stop (AssertFail line) /\
    line ∈ [30; 33; 36; 37; 38] /\
    count is_wait_any (fst (main se es)) = 0%nat.
Proof.
  intros Hfail.
  assert (Hs : exists t line, setup se = (t, Stop (AssertFail line))
                              /\ line ∈ [30; 33; 36; 37; 38]).
  { unfold_setup.
    destruct (inet_pton_ret se =? 1) eqn:E0;
      [|eexists _, _; split; [reflexivity|rewrite !elem_of_cons; auto 10]].
    destruct (demi_init_ret se =? 0) eqn:E1;
      [|eexists _, _; split; [reflexivity|rewrite !elem_of_cons; auto 10]].
    destruct (demi_socket_ret se =? 0) eqn:E2;
      [|eexists _, _; split; [reflexivity|rewrite !elem_of_cons; auto 10]].
    destruct (demi_bind_ret se =? 0) eqn:E3;
      [|eexists _, _; split; [reflexivity|rewrite !elem_of_cons; auto 10]].
    destruct (demi_listen_ret se =? 0) eqn:E4;
      [|eexists _, _; split; [reflexivity|rewrite !elem_of_cons; auto 10]].
    apply Z.eqb_eq in E2, E3, E4. exfalso. lia. }
  destruct Hs as (t & line & Hs & Hline).
  exists line. rewrite (main_setup_stop _ es _ _ Hs). cbn [fst snd].
  split; [reflexivity|]. split; [exact Hline|].
  pose proof (setup_wait_calls se) as Hw. rewrite Hs in Hw. exact Hw.
Qed.

(** C9.  The address handed to [demi_bind] carries the literal 9050 in its
    port field.  On a little-endian host this is not [htons 9050]: the two
    bytes, read in network order, are port 23075. *)
Theorem port_is_stored_without_htons (se : setup_env) (qd : Z) (addr : sockaddr_in) :
  Call_demi_bind qd addr ∈ fst (setup se) ->
  sin_port addr = 9050 /\
  sin_port addr <> htons LittleEndian 9050 /\
  port_on_wire LittleEndian (sin_port addr) = 23075.
Proof.
  intros Hin.
  assert (Hp : sin_port addr = 9050).
  { revert Hin. unfold_setup.
    repeat case_match; simplify_eq; cbn [fst app];
      rewrite ?elem_of_cons, ?elem_of_nil; intros Hin;
      repeat (destruct Hin as [Hin|Hin]; try discriminate Hin); try contradiction;
      injection Hin as -> ->; reflexivity. }
  rewrite Hp. split; [reflexivity|]. split; [|reflexivity].
  vm_compute. discriminate.
Qed.

Lemma main_never_returns se es : forall status, snd (main se es) <> Ok status.
Proof.
  intros status.
  destruct (setup se) as [t [st|s]] eqn:Hs.
  - destruct (main_setup_ok se es t st Hs) as (s & Hm & _).
    rewrite Hm. discriminate.
  - rewrite (main_setup_stop se es t s Hs). discriminate.
Qed.

(** C10, amended.  Once the loop is entered it never exits normally: the
    loop does not fall through and [main] never returns, so
    [return (EXIT_SUCCESS)] is not reached.  As long as the behaviour of the
    program is defined, a run that is not waiting for a completion has been
    stopped by a failed assertion, that of line 42, 46 or 49. *)
Theorem loop_ends_only_by_assertion (se : setup_env) (es : list iter_env)
    (st : state) (s : stop) :
  (forall status, snd (main se es) <> Ok status) /\
  (forall st1, snd (reactor es st) <> Ok st1) /\
  (snd (reactor es st) = Stop s ->
   (forall u, s <> Undefined u) ->
   (exists st', s = Blocked st') \/
   (exists line, s = AssertFail line /\ line ∈ [42; 46; 49])).
Proof.
  split; [apply main_never_returns|].
  destruct (reactor_stops es st) as (s0 & Hs0 & Hl).
  split.
  - intros st1. rewrite Hs0. discriminate.
  - intros Hs Hdef. rewrite Hs0 in Hs. injection Hs as ->.
    destruct s as [line|u|st'].
    + right. exists line. split; [reflexivity|exact Hl].
    + exfalso. exact (Hdef u eq_refl).
    + left. exists st'. reflexivity.
Qed.

(** C7.  A completion whose opcode is neither [DEMI_OPC_ACCEPT] nor
    [DEMI_OPC_POP] makes the iteration print the opcode and nothing else;
    the iteration ends normally and the loop goes on with its next
    iteration, the token array and [nqts] unchanged. *)
Theorem unrecognized_opcode_is_logged (e : iter_env) (es : list iter_env) (st : state) :
  demi_wait_any_ret e = 0 ->
  qr_opcode (wait_qr e) <> DEMI_OPC_ACCEPT ->
  qr_opcode (wait_qr e) <> DEMI_OPC_POP ->
  let st' := set_qr (wait_qr e) (wait_offset e) st in
  loop_body e st
    = ([Call_demi_wait_any (qts st) NQTOKEN; Stdout_opcode (qr_opcode (wait_qr e))],
       Ok st')
  /\ reactor (e :: es) st
    = (Call_demi_wait_any (qts st) NQTOKEN :: Stdout_opcode (qr_opcode (wait_qr e))
         :: fst (reactor es st'),
       snd (reactor es st')).
Proof.
  intros Hw Ha Hp st'.
  assert (Hstep : loop_body e st
    = ([Call_demi_wait_any (qts st) NQTOKEN; Stdout_opcode (qr_opcode (wait_qr e))],
       Ok st')).
  { unfold_step. cbn [qr set_qr]. rewrite Hw. cbn.
    apply Z.eqb_neq in Ha, Hp. rewrite Ha, Hp. reflexivity. }
  split; [exact Hstep|].
  rewrite (reactor_step_ok _ _ _ _ _ Hstep). reflexivity.
Qed.

(** *** The token array *)

(** C6, amended.  No token leaves the array: every call of
    [demi_wait_any] is given all [NQTOKEN] slots, and a slot below [nqts]
    holds in every later call the token it holds now, also after that
    token's completion was reported. *)
Theorem tokens_are_never_removed (es : list iter_env) (st : state)
    (toks : list Z) (num i : Z) :
  0 <= i < nqts st ->
  (toks, num) ∈ wait_calls (fst (reactor es st)) ->
  num = NQTOKEN /\ toks !! Z.to_nat i = qts st !! Z.to_nat i.
Proof.
  revert st. induction es as [|e es IH]; intros st Hi Hin.
  - rewrite reactor_nil in Hin. cbn in Hin. apply elem_of_nil in Hin. contradiction.
  - pose proof (loop_body_wait_calls e st) as Hw.
    destruct (loop_body e st) as [t [st'|s]] eqn:Hb; cbn [fst] in Hw.
    + rewrite (reactor_step_ok _ _ _ _ _ Hb) in Hin. cbn [fst] in Hin.
      rewrite wait_calls_app, Hw in Hin. cbn [app] in Hin.
      apply elem_of_cons in Hin. destruct Hin as [Heq|Hin].
      * injection Heq as -> ->. split; reflexivity.
      * destruct (loop_body_keeps_tokens e st st') as [Hn Hk];
          [rewrite Hb; reflexivity|].
        destruct (IH st' ltac:(lia) Hin) as [-> Hl].
        split; [reflexivity|]. rewrite Hl. apply Hk. exact Hi.
    + rewrite (reactor_step_stop _ _ _ _ _ Hb) in Hin. cbn [fst] in Hin.
      rewrite Hw in Hin. apply elem_of_cons in Hin. destruct Hin as [Heq|Hin].
      * injection Heq as -> ->. split; reflexivity.
      * apply elem_of_nil in Hin. contradiction.
Qed.

(** *** The Accept branch *)

(** C3, amended.  On an Accept completion, with a free slot in [qts], the
    handler prints [accept], issues one receive on the new connection and
    stores its token in slot [nqts], which it increments.  It issues no
    accept: no iteration of the loop calls [demi_accept]. *)
Theorem accept_arms_receive_only (e : iter_env) (es : list iter_env) (st : state) :
  demi_wait_any_ret e = 0 ->
  qr_opcode (wait_qr e) = DEMI_OPC_ACCEPT ->
  demi_pop_ret e = 0 ->
  0 <= nqts st < NQTOKEN ->
  loop_body e st
    = ([Call_demi_wait_any (qts st) NQTOKEN; Stdout_accept;
        Call_demi_pop (nqts st) (qr_value_ares_qd (wait_qr e))],
       Ok (set_qts (<[Z.to_nat (nqts st) := demi_pop_qt e]> (qts st))
             (set_nqts (nqts st + 1) (set_qr (wait_qr e) (wait_offset e) st))))
  /\ count is_accept_call (fst (reactor (e :: es) st)) = 0%nat.
Proof.
  intros Hw Ha Hp [Hlo Hhi]. split; [|apply reactor_no_accept].
  unfold_step. cbn [qr set_qr nqts set_nqts qts]. rewrite Hw, Hp, Ha.
  rewrite !Z.eqb_refl.
  apply Z.leb_le in Hlo. apply Z.ltb_lt in Hhi. rewrite Hlo, Hhi.
  reflexivity.
Qed.

(** C2.  On an Accept completion with [nqts = NQTOKEN] the handler passes
    [&qts[NQTOKEN]] to [demi_pop], which stores the token one slot past
    the end of the array; nothing is reported. *)
Theorem accept_at_capacity_stores_out_of_bounds (e : iter_env) (st : state) :
  nqts st = NQTOKEN ->
  demi_wait_any_ret e = 0 ->
  qr_opcode (wait_qr e) = DEMI_OPC_ACCEPT ->
  demi_pop_ret e = 0 ->
  loop_body e st
    = ([Call_demi_wait_any (qts st) NQTOKEN; Stdout_accept;
        Call_demi_pop NQTOKEN (qr_value_ares_qd (wait_qr e))],
       Stop (Undefined (Store_out_of_bounds NQTOKEN))).
Proof.
  intros Hn Hw Ha Hp.
  unfold_step. cbn [qr set_qr nqts set_nqts qts]. rewrite Hw, Hp, Ha, Hn.
  rewrite !Z.eqb_refl. reflexivity.
Qed.

(** *** The Receive branch *)

Lemma loop_body_receive e st slots seg :
  demi_wait_any_ret e = 0 ->
  qr_opcode (wait_qr e) <> DEMI_OPC_ACCEPT ->
  qr_opcode (wait_qr e) = DEMI_OPC_POP ->
  sga_segs (qr_value_sga (wait_qr e)) = Some slots ->
  slots !! 0%nat = Some seg ->
  loop_body e st
    = ([Call_demi_wait_any (qts st) NQTOKEN;
        Stdout_recv (sgaseg_len seg) (sgaseg_buf seg)],
       Ok (set_qr (wait_qr e) (wait_offset e) st)).
Proof.
  intros Hw Ha Hp Hs Hseg.
  unfold_step. cbn [qr set_qr]. rewrite Hw, Hs. cbn [Z.eqb non_null].
  apply Z.eqb_neq in Ha. rewrite Ha, Hp, !Z.eqb_refl, Hseg. reflexivity.
Qed.

(** C4, amended.  On a Receive completion whose segment 0 can be read the
    dispatcher prints that segment and does nothing else: it issues no
    receive, and the token array and [nqts] are as before. *)
Theorem receive_is_one_shot (e : iter_env) (st : state)
    (slots : list demi_sgaseg_t) (seg : demi_sgaseg_t) :
  demi_wait_any_ret e = 0 ->
  qr_opcode (wait_qr e) <> DEMI_OPC_ACCEPT ->
  qr_opcode (wait_qr e) = DEMI_OPC_POP ->
  sga_segs (qr_value_sga (wait_qr e)) = Some slots ->
  slots !! 0%nat = Some seg ->
  loop_body e st
    = ([Call_demi_wait_any (qts st) NQTOKEN;
        Stdout_recv (sgaseg_len seg) (sgaseg_buf seg)],
       Ok (set_qr (wait_qr e) (wait_offset e) st))
  /\ forall qd, count (is_pop_call_on qd) (fst (loop_body e st)) = 0%nat.
Proof.
  intros Hw Ha Hp Hs Hseg.
  pose proof (loop_body_receive e st slots seg Hw Ha Hp Hs Hseg) as Hb.
  split; [exact Hb|]. intros qd. rewrite Hb. reflexivity.
Qed.

(** C1.  On a Receive completion whose segment 0 can be read the bytes are
    printed once, and [demi_sgafree] is called neither in that iteration
    nor in any later one. *)
Theorem receive_buffer_is_not_released (e : iter_env) (es : list iter_env)
    (st : state) (slots : list demi_sgaseg_t) (seg : demi_sgaseg_t) :
  demi_wait_any_ret e = 0 ->
  qr_opcode (wait_qr e) <> DEMI_OPC_ACCEPT ->
  qr_opcode (wait_qr e) = DEMI_OPC_POP ->
  sga_segs (qr_value_sga (wait_qr e)) = Some slots ->
  slots !! 0%nat = Some seg ->
  count is_recv (fst (loop_body e st)) = 1%nat /\
  count is_release (fst (reactor (e :: es) st)) = 0%nat.
Proof.
  intros Hw Ha Hp Hs Hseg. split; [|apply reactor_no_release].
  rewrite (loop_body_receive e st slots seg Hw Ha Hp Hs Hseg). reflexivity.
Qed.

Lemma loop_body_null_segments e st :
  demi_wait_any_ret e = 0 ->
  qr_opcode (wait_qr e) <> DEMI_OPC_ACCEPT ->
  qr_opcode (wait_qr e) = DEMI_OPC_POP ->
  sga_segs (qr_value_sga (wait_qr e)) = None ->
  loop_body e st = ([Call_demi_wait_any (qts st) NQTOKEN], Stop (AssertFail 49)).
Proof.
  intros Hw Ha Hp Hs.
  unfold_step. cbn [qr set_qr]. rewrite Hw, Hs. cbn [Z.eqb non_null].
  apply Z.eqb_neq in Ha. rewrite Ha, Hp, !Z.eqb_refl. reflexivity.
Qed.

(** C5, amended.  A Receive completion whose segment list is empty is not
    refused.  The only check is the assertion of line 49 on the segment
    pointer.  Where the pointer is not null and slot 0 of the storage is
    there, the assertion passes, slot 0 is read and printed whatever the
    segment count is, and the loop goes on with its next iteration.  Where
    the pointer is null, nothing is read, the assertion fails and the
    process is stopped. *)
Theorem empty_payload_is_not_refused (e : iter_env) (es : list iter_env) (st : state) :
  demi_wait_any_ret e = 0 ->
  qr_opcode (wait_qr e) <> DEMI_OPC_ACCEPT ->
  qr_opcode (wait_qr e) = DEMI_OPC_POP ->
  sga_segments (qr_value_sga (wait_qr e)) = [] ->
  (forall slots seg,
     sga_segs (qr_value_sga (wait_qr e)) = Some slots ->
     slots !! 0%nat = Some seg ->
     let st' := set_qr (wait_qr e) (wait_offset e) st in
     loop_body e st
       = ([Call_demi_wait_any (qts st) NQTOKEN;
           Stdout_recv (sgaseg_len seg) (sgaseg_buf seg)], Ok st')
     /\ reactor (e :: es) st
       = (Call_demi_wait_any (qts st) NQTOKEN
            :: Stdout_recv (sgaseg_len seg) (sgaseg_buf seg)
            :: fst (reactor es st'),
          snd (reactor es st')))
  /\
  (sga_segs (qr_value_sga (wait_qr e)) = None ->
   loop_body e st = ([Call_demi_wait_any (qts st) NQTOKEN], Stop (AssertFail 49))
   /\ reactor (e :: es) st
      = ([Call_demi_wait_any (qts st) NQTOKEN], Stop (AssertFail 49))).
Proof.
  intros Hw Ha Hp _. split.
  - intros slots seg Hs Hseg st'.
    pose proof (loop_body_receive e st slots seg Hw Ha Hp Hs Hseg) as Hb.
    split; [exact Hb|]. rewrite (reactor_step_ok _ _ _ _ _ Hb). reflexivity.
  - intros Hs. pose proof (loop_body_null_segments e st Hw Ha Hp Hs) as Hb.
    split; [exact Hb|]. exact (reactor_step_stop _ _ _ _ _ Hb).
Qed.

End Proofs.

(** ** The theorems on the sample inputs *)

(** C8 on [setup_bind_fails]: [demi_bind] returns 98. *)
Lemma setup_failure_aborts_before_loop_witness :
  (demi_socket_ret setup_bind_fails <> 0 \/ demi_bind_ret setup_bind_fails <> 0
   \/ demi_listen_ret setup_bind_fails <> 0) /\
  exists line,
    snd (@main sample_header setup_bind_fails [accept_completion])
      = Stop (AssertFail line) /\
    line ∈ [30; 33; 36; 37; 38] /\
    count is_wait_any (fst (@main sample_header setup_bind_fails [accept_completion]))
      = 0%nat.
Proof.
  assert (Hfail : demi_socket_ret setup_bind_fails <> 0
                  \/ demi_bind_ret setup_bind_fails <> 0
                  \/ demi_listen_ret setup_bind_fails <> 0).
  { right. left. cbn. lia. }
  split; [exact Hfail|].
  exact (@setup_failure_aborts_before_loop sample_header setup_bind_fails
           [accept_completion] Hfail).
Defined.

(** C9 on [setup_ok]: the call [demi_bind(4, &saddr)]. *)
Lemma port_is_stored_without_htons_witness :
  Call_demi_bind 4 (saddr state_after_setup) ∈ fst (@setup sample_header setup_ok) /\
  sin_port (saddr state_after_setup) = 9050 /\
  sin_port (saddr state_after_setup) <> htons LittleEndian 9050 /\
  port_on_wire LittleEndian (sin_port (saddr state_after_setup)) = 23075.
Proof.
  assert (Hin : Call_demi_bind 4 (saddr state_after_setup)
                ∈ fst (@setup sample_header setup_ok)).
  { vm_compute. do 3 apply list_elem_of_further. apply list_elem_of_here. }
  split; [exact Hin|].
  exact (@port_is_stored_without_htons sample_header setup_ok 4
           (saddr state_after_setup) Hin).
Defined.

(** C7 on [push_completion]: opcode 1 is printed and the loop goes on. *)
Lemma unrecognized_opcode_is_logged_witness :
  @loop_body sample_header push_completion state_after_accept
    = ([Call_demi_wait_any (qts state_after_accept) NQTOKEN; Stdout_opcode 1],
       Ok (set_qr (wait_qr push_completion) 2 state_after_accept))
  /\ @reactor sample_header [push_completion; recv_completion] state_after_accept
    = (Call_demi_wait_any (qts state_after_accept) NQTOKEN :: Stdout_opcode 1
         :: fst (@reactor sample_header [recv_completion]
                   (set_qr (wait_qr push_completion) 2 state_after_accept)),
       snd (@reactor sample_header [recv_completion]
              (set_qr (wait_qr push_completion) 2 state_after_accept))).
Proof.
  apply (@unrecognized_opcode_is_logged sample_header push_completion
           [recv_completion] state_after_accept).
  - reflexivity.
  - cbn. lia.
  - cbn. lia.
Defined.

(** C6 on the token 100 of the first accept: it is in the array of both
    calls of [demi_wait_any]. *)
Lemma tokens_are_never_removed_witness :
  (100 :: 200 :: replicate 1022 0, NQTOKEN)
    ∈ wait_calls (fst (@reactor sample_header [accept_completion; recv_completion]
                         state_after_setup)) /\
  NQTOKEN = NQTOKEN /\
  (100 :: 200 :: replicate 1022 0) !! Z.to_nat 0 = qts state_after_setup !! Z.to_nat 0.
Proof.
  assert (Hin : (100 :: 200 :: replicate 1022 0, NQTOKEN)
                ∈ wait_calls (fst (@reactor sample_header
                                     [accept_completion; recv_completion]
                                     state_after_setup))).
  { vm_compute. apply list_elem_of_further. apply list_elem_of_here. }
  split; [exact Hin|].
  apply (@tokens_are_never_removed sample_header
           [accept_completion; recv_completion] state_after_setup
           (100 :: 200 :: replicate 1022 0) NQTOKEN 0).
  - cbn. lia.
  - exact Hin.
Defined.

(** C3 on [accept_completion]: a receive on queue 5 into slot 1. *)
Lemma accept_arms_receive_only_witness :
  @loop_body sample_header accept_completion state_after_setup
    = ([Call_demi_wait_any (qts state_after_setup) NQTOKEN; Stdout_accept;
        Call_demi_pop 1 5],
       Ok (set_qts (<[Z.to_nat 1 := 200]> (qts state_after_setup))
             (set_nqts (1 + 1) (set_qr (wait_qr accept_completion) 0 state_after_setup))))
  /\ count is_accept_call
       (fst (@reactor sample_header [accept_completion; recv_completion]
               state_after_setup)) = 0%nat.
Proof.
  apply (@accept_arms_receive_only sample_header accept_completion
           [recv_completion] state_after_setup).
  - reflexivity.
  - reflexivity.
  - reflexivity.
  - unfold NQTOKEN. cbn. lia.
Defined.

(** C2 on [state_full]: the 1024th accept completes. *)
Lemma accept_at_capacity_stores_out_of_bounds_witness :
  snd (@reactor sample_header (replicate 1023 accept_completion) state_after_setup)
    = Stop (Blocked state_full) /\
  @loop_body sample_header accept_completion state_full
    = ([Call_demi_wait_any (qts state_full) NQTOKEN; Stdout_accept;
        Call_demi_pop NQTOKEN 5],
       Stop (Undefined (Store_out_of_bounds NQTOKEN))).
Proof.
  split; [vm_compute; reflexivity|].
  apply (@accept_at_capacity_stores_out_of_bounds sample_header accept_completion
           state_full); reflexivity.
Defined.

(** C4 on [recv_completion]: [hello] is printed, no receive is issued on
    queue 5. *)
Lemma receive_is_one_shot_witness :
  @loop_body sample_header recv_completion state_after_accept
    = ([Call_demi_wait_any (qts state_after_accept) NQTOKEN; Stdout_recv 5 "hello"],
       Ok (set_qr (wait_qr recv_completion) 1 state_after_accept))
  /\ forall qd, count (is_pop_call_on qd)
                  (fst (@loop_body sample_header recv_completion state_after_accept))
                = 0%nat.
Proof.
  apply (@receive_is_one_shot sample_header recv_completion state_after_accept
           [ {| sgaseg_buf := "hello"; sgaseg_len := 5 |} ]
           {| sgaseg_buf := "hello"; sgaseg_len := 5 |}).
  - reflexivity.
  - cbn. lia.
  - reflexivity.
  - reflexivity.
  - reflexivity.
Defined.

(** C1 on [recv_completion]: one message received, no buffer released. *)
Lemma receive_buffer_is_not_released_witness :
  count is_recv (fst (@loop_body sample_header recv_completion state_after_accept))
    = 1%nat /\
  count is_release
    (fst (@reactor sample_header [recv_completion; push_completion] state_after_accept))
    = 0%nat.
Proof.
  apply (@receive_buffer_is_not_released sample_header recv_completion
           [push_completion] state_after_accept
           [ {| sgaseg_buf := "hello"; sgaseg_len := 5 |} ]
           {| sgaseg_buf := "hello"; sgaseg_len := 5 |}).
  - reflexivity.
  - cbn. lia.
  - reflexivity.
  - reflexivity.
  - reflexivity.
Defined.

(** C5 on the two receive completions without segments: with the storage
    there, slot 0 is printed; with a null pointer, line 49 fails. *)
Lemma empty_payload_is_not_refused_witness :
  sga_segments (qr_value_sga (wait_qr recv_completion_zero_count)) = [] /\
  sga_segments (qr_value_sga (wait_qr recv_completion_no_segs)) = [] /\
  @loop_body sample_header recv_completion_zero_count state_after_accept
    = ([Call_demi_wait_any (qts state_after_accept) NQTOKEN; Stdout_recv 5 "stale"],
       Ok (set_qr (wait_qr recv_completion_zero_count) 1 state_after_accept)) /\
  @loop_body sample_header recv_completion_no_segs state_after_accept
    = ([Call_demi_wait_any (qts state_after_accept) NQTOKEN], Stop (AssertFail 49)).
Proof.
  assert (He1 : sga_segments (qr_value_sga (wait_qr recv_completion_zero_count)) = []).
  { reflexivity. }
  assert (He2 : sga_segments (qr_value_sga (wait_qr recv_completion_no_segs)) = []).
  { reflexivity. }
  assert (Hn1 : qr_opcode (wait_qr recv_completion_zero_count)
                <> @DEMI_OPC_ACCEPT sample_header).
  { cbn. lia. }
  assert (Hn2 : qr_opcode (wait_qr recv_completion_no_segs)
                <> @DEMI_OPC_ACCEPT sample_header).
  { cbn. lia. }
  split; [exact He1|]. split; [exact He2|]. split.
  - exact (proj1 (proj1 (@empty_payload_is_not_refused sample_header
                           recv_completion_zero_count [] state_after_accept
                           eq_refl Hn1 eq_refl He1)
                    [ {| sgaseg_buf := "stale"; sgaseg_len := 5 |} ]
                    {| sgaseg_buf := "stale"; sgaseg_len := 5 |} eq_refl eq_refl)).
  - exact (proj1 (proj2 (@empty_payload_is_not_refused sample_header
                           recv_completion_no_segs [] state_after_accept
                           eq_refl Hn2 eq_refl He2) eq_refl)).
Defined.

(** C10 on an accept followed by a receive with a null segment pointer: the
    run is stopped by the assertion of line 49. *)
Lemma loop_ends_only_by_assertion_witness :
  snd (@reactor sample_header [accept_completion; recv_completion_no_segs]
         state_after_setup) = Stop (AssertFail 49) /\
  ((exists st', AssertFail 49 = Blocked st') \/
   (exists line, AssertFail 49 = AssertFail line /\ line ∈ [42; 46; 49])).
Proof.
  assert (Hs : snd (@reactor sample_header
                      [accept_completion; recv_completion_no_segs]
                      state_after_setup) = Stop (AssertFail 49)).
  { vm_compute. reflexivity. }
  split; [exact Hs|].
  apply (proj2 (proj2 (@loop_ends_only_by_assertion sample_header setup_ok
                         [accept_completion; recv_completion_no_segs]
                         state_after_setup (AssertFail 49)))).
  - exact Hs.
  - intros u. discriminate.
Defined.

(** ** Where the program departs from the specification *)

(** C3 fails on [accept_completion]: the handler issues the receive but no
    accept on the listening socket. *)
Lemma accept_rearms_listening_counterexample :
  ~ @accept_rearms_listening sample_header accept_completion state_after_setup.
Proof.
  intros Hc. destruct Hc as [_ Hacc].
  - reflexivity.
  - reflexivity.
  - reflexivity.
  - unfold NQTOKEN. cbn. lia.
  - vm_compute in Hacc. lia.
Qed.

(** C4 fails on [recv_completion]: no receive is issued on queue 5 after
    [hello] was printed. *)
Lemma receive_rearms_connection_counterexample :
  ~ @receive_rearms_connection sample_header recv_completion state_after_accept.
Proof.
  intros Hc. unfold receive_rearms_connection in Hc.
  assert (Hn : (1 <= count (is_pop_call_on (qr_qd (wait_qr recv_completion)))
                      (fst (@loop_body sample_header recv_completion state_after_accept)))%nat).
  { apply Hc.
    - reflexivity.
    - cbn. lia.
    - reflexivity.
    - vm_compute. discriminate. }
  vm_compute in Hn. lia.
Qed.

(** C5 fails on both receive completions without segments.  With a null
    segment pointer ([recv_completion_no_segs]) the iteration does not end
    normally: the assertion of line 49 stops the process.  With the storage
    there ([recv_completion_zero_count]) segment 0 is read and printed. *)
Lemma empty_payload_handled_counterexample :
  ~ @empty_payload_handled sample_header recv_completion_no_segs state_after_accept
  /\ ~ @empty_payload_handled sample_header recv_completion_zero_count
        state_after_accept.
Proof.
  split.
  - intros Hc. destruct Hc as [[st' Hst] _].
    + reflexivity.
    + cbn. lia.
    + reflexivity.
    + reflexivity.
    + vm_compute in Hst. discriminate Hst.
  - intros Hc. destruct Hc as [_ Hn].
    + reflexivity.
    + cbn. lia.
    + reflexivity.
    + reflexivity.
    + vm_compute in Hn. discriminate Hn.
Qed.

(** C6 fails on the first accept: token 100, reported complete at index 0 by
    the first call of [demi_wait_any], is in the array of the second call. *)
Lemma completed_token_dropped_counterexample :
  ~ @completed_token_dropped sample_header accept_completion recv_completion
      state_after_setup.
Proof.
  intros Hc.
  apply (Hc (100 :: replicate 1023 0) (100 :: 200 :: replicate 1022 0)
            NQTOKEN NQTOKEN 100).
  - vm_compute. reflexivity.
  - reflexivity.
  - apply list_elem_of_here.
Qed.

(** C10 fails after the set-up on 1024 accept completions: no assertion
    fails, and the run is over with the store of a token to [qts[1024]]. *)
Lemma loop_ends_by_assertion_only_counterexample :
  ~ @loop_ends_by_assertion_only sample_header
      (replicate 1024 accept_completion) state_after_setup.
Proof.
  intros Hc.
  assert (Hs : snd (@reactor sample_header (replicate 1024 accept_completion)
                      state_after_setup)
               = Stop (Undefined (Store_out_of_bounds 1024))).
  { vm_compute. reflexivity. }
  destruct (Hc _ Hs) as [[st' Hb]|[line Ha]]; discriminate.
Qed.

(** * Further properties of [main] *)

Section Runs.
Context `{DemiHeader}.

(** ** One iteration, case by case *)

(** What an iteration that ends normally has done. *)
Lemma loop_body_ok_cases e st t st1 :
  loop_body e st = (t, Ok st1) ->
  demi_wait_any_ret e = 0 /\
  ((is_accept_completion e = true /\ demi_pop_ret e = 0 /\
    0 <= nqts st < NQTOKEN /\
    t = [Call_demi_wait_any (qts st) NQTOKEN; Stdout_accept;
         Call_demi_pop (nqts st) (qr_value_ares_qd (wait_qr e))] /\
    st1 = set_qts (<[Z.to_nat (nqts st) := demi_pop_qt e]> (qts st))
            (set_nqts (nqts st + 1) (set_qr (wait_qr e) (wait_offset e) st)))
   \/
   (is_accept_completion e = false /\
    st1 = set_qr (wait_qr e) (wait_offset e) st /\
    ((is_pop_completion e = true /\
      exists seg, segment0 (qr_value_sga (wait_qr e)) = Some seg /\
        t = [Call_demi_wait_any (qts st) NQTOKEN;
             Stdout_recv (sgaseg_len seg) (sgaseg_buf seg)])
     \/
     (is_pop_completion e = false /\
      t = [Call_demi_wait_any (qts st) NQTOKEN;
           Stdout_opcode (qr_opcode (wait_qr e))])))).
Proof.
  unfold is_pop_completion, is_accept_completion, segment0.
  unfold_step. cbn [qr set_qr nqts set_nqts qts].
  destruct (demi_wait_any_ret e =? 0) eqn:Ew; [|discriminate].
  apply Z.eqb_eq in Ew. cbn [app].
  destruct (qr_opcode (wait_qr e) =? DEMI_OPC_ACCEPT) eqn:Ea.
  - destruct (demi_pop_ret e =? 0) eqn:Ep.
    + destruct ((0 <=? nqts st) && (nqts st <? NQTOKEN)) eqn:Eb; [|discriminate].
      intros Hr. injection Hr as <- <-. apply Z.eqb_eq in Ep.
      apply andb_true_iff in Eb. destruct Eb as [E1 E2].
      apply Z.leb_le in E1. apply Z.ltb_lt in E2.
      split; [exact Ew|]. left. repeat split; auto.
    + discriminate.
  - cbn [negb andb].
    destruct (qr_opcode (wait_qr e) =? DEMI_OPC_POP) eqn:Eo.
    + destruct (sga_segs (qr_value_sga (wait_qr e))) as [slots|] eqn:Es;
        cbn [non_null]; [|discriminate].
      destruct (slots !! 0%nat) as [seg|] eqn:E0; [|discriminate].
      intros Hr. injection Hr as <- <-.
      split; [exact Ew|]. right. repeat split. left. split; [reflexivity|].
      exists seg. split; reflexivity.
    + intros Hr. injection Hr as <- <-.
      split; [exact Ew|]. right. repeat split. right. split; reflexivity.
Qed.

(** X3.  An iteration ends normally exactly when the wait succeeded and the
    branch taken could do its work: on an accept completion [demi_pop]
    succeeded and [nqts] was inside the array, on a receive completion
    segment 0 could be read; any other completion is survived. *)
Theorem iteration_survives_iff (e : iter_env) (st : state) :
  (exists st1, snd (loop_body e st) = Ok st1) <-> iteration_survives e st.
Proof.
  unfold iteration_survives. split.
  - intros [st1 Hs]. destruct (loop_body e st) as [t r] eqn:Hb.
    cbn [snd] in Hs. subst r.
    destruct (loop_body_ok_cases e st t st1 Hb)
      as [Hw [(Ha & Hp & Hn & _)|(Ha & _ & [(Hp & seg & Hseg & _)|(Hp & _)])]];
      rewrite Ha, ?Hp; (split; [exact Hw|]); auto.
  - intros [Hw Hcase].
    unfold is_pop_completion, is_accept_completion, segment0 in *.
    unfold_step. cbn [qr set_qr nqts set_nqts qts]. rewrite Hw. cbn [Z.eqb app].
    destruct (qr_opcode (wait_qr e) =? DEMI_OPC_ACCEPT) eqn:Ea.
    + destruct Hcase as [Hp [Hlo Hhi]]. rewrite Hp. cbn [Z.eqb].
      apply Z.leb_le in Hlo. apply Z.ltb_lt in Hhi. rewrite Hlo, Hhi.
      eexists. reflexivity.
    + cbn [negb andb] in Hcase.
      destruct (qr_opcode (wait_qr e) =? DEMI_OPC_POP) eqn:Eo.
      * destruct Hcase as [seg Hseg].
        destruct (sga_segs (qr_value_sga (wait_qr e))) as [slots|]; [|discriminate].
        cbn [non_null]. rewrite Hseg. eexists. reflexivity.
      * eexists. reflexivity.
Qed.

(** X4.  The assertions of the loop.  Line 42 fails exactly when
    [demi_wait_any] returns non-zero, line 46 exactly when the wait
    succeeded, the completion is an accept and [demi_pop] returns non-zero,
    line 49 exactly when the wait succeeded, the completion is a receive and
    its segment pointer is null.  No other assertion fails in the loop. *)
Theorem iteration_assertion_iff (e : iter_env) (st : state) (line : Z) :
  snd (loop_body e st) = Stop (AssertFail line) <->
  (line = 42 /\ demi_wait_any_ret e <> 0) \/
  (line = 46 /\ demi_wait_any_ret e = 0 /\ is_accept_completion e = true /\
   demi_pop_ret e <> 0) \/
  (line = 49 /\ demi_wait_any_ret e = 0 /\ is_pop_completion e = true /\
   sga_segs (qr_value_sga (wait_qr e)) = None).
Proof.
  unfold is_pop_completion, is_accept_completion.
  unfold_step. cbn [qr set_qr nqts set_nqts qts].
  destruct (demi_wait_any_ret e =? 0) eqn:Ew.
  - apply Z.eqb_eq in Ew. cbn [app].
    destruct (qr_opcode (wait_qr e) =? DEMI_OPC_ACCEPT) eqn:Ea; cbn [negb andb].
    + destruct (demi_pop_ret e =? 0) eqn:Ep.
      * apply Z.eqb_eq in Ep.
        destruct ((0 <=? nqts st) && (nqts st <? NQTOKEN)); cbn [snd];
          (split; [discriminate|]);
          intros [[_ Hc]|[(_ & _ & _ & Hc)|(_ & _ & Hc & _)]];
          try contradiction; discriminate.
      * apply Z.eqb_neq in Ep. cbn [snd]. split.
        -- intros Hr. injection Hr as <-. right. left. auto.
        -- intros [[_ Hc]|[(-> & _)|(_ & _ & Hc & _)]];
             [contradiction|reflexivity|discriminate].
    + destruct (qr_opcode (wait_qr e) =? DEMI_OPC_POP) eqn:Eo.
      * destruct (sga_segs (qr_value_sga (wait_qr e))) as [slots|] eqn:Es;
          cbn [non_null].
        -- destruct (slots !! 0%nat); cbn [snd]; (split; [discriminate|]);
             intros [[_ Hc]|[(_ & _ & Hc & _)|(_ & _ & _ & Hc)]];
             try contradiction; discriminate.
        -- cbn [snd]. split.
           ++ intros Hr. injection Hr as <-. right. right. auto.
           ++ intros [[_ Hc]|[(_ & _ & Hc & _)|(-> & _)]];
                [contradiction|discriminate|reflexivity].
      * cbn [snd]. split; [discriminate|].
        intros [[_ Hc]|[(_ & _ & Hc & _)|(_ & _ & Hc & _)]];
          try contradiction; discriminate.
  - apply Z.eqb_neq in Ew. cbn [snd]. split.
    + intros Hr. injection Hr as <-. left. auto.
    + intros [[-> _]|[(_ & Hc & _)|(_ & Hc & _)]];
        [reflexivity|contradiction|contradiction].
Qed.

(** ** The set-up *)

Lemma setup_cases se :
  (inet_pton_ret se <> 1 /\
   setup se = (take 1 (setup_calls se), Stop (AssertFail 30))) \/
  (inet_pton_ret se = 1 /\ demi_init_ret se <> 0 /\
   setup se = (take 2 (setup_calls se), Stop (AssertFail 33))) \/
  (inet_pton_ret se = 1 /\ demi_init_ret se = 0 /\ demi_socket_ret se <> 0 /\
   setup se = (take 3 (setup_calls se), Stop (AssertFail 36))) \/
  (inet_pton_ret se = 1 /\ demi_init_ret se = 0 /\ demi_socket_ret se = 0 /\
   demi_bind_ret se <> 0 /\
   setup se = (take 4 (setup_calls se), Stop (AssertFail 37))) \/
  (inet_pton_ret se = 1 /\ demi_init_ret se = 0 /\ demi_socket_ret se = 0 /\
   demi_bind_ret se = 0 /\ demi_listen_ret se <> 0 /\
   setup se = (take 5 (setup_calls se), Stop (AssertFail 38))) \/
  (inet_pton_ret se = 1 /\ demi_init_ret se = 0 /\ demi_socket_ret se = 0 /\
   demi_bind_ret se = 0 /\ demi_listen_ret se = 0 /\ demi_accept_ret se <> 0 /\
   setup se = (setup_calls se, Stop (AssertFail 39))) \/
  (inet_pton_ret se = 1 /\ demi_init_ret se = 0 /\ demi_socket_ret se = 0 /\
   demi_bind_ret se = 0 /\ demi_listen_ret se = 0 /\ demi_accept_ret se = 0 /\
   setup se = (setup_calls se, Ok (state_of_setup se))).
Proof.
  unfold_setup. unfold setup_calls, state_of_setup.
  destruct (Z.eqb_spec (inet_pton_ret se) 1) as [E0|E0]; [|left; auto].
  right.
  destruct (Z.eqb_spec (demi_init_ret se) 0) as [E1|E1]; [|left; auto].
  right.
  destruct (Z.eqb_spec (demi_socket_ret se) 0) as [E2|E2]; [|left; auto].
  right.
  destruct (Z.eqb_spec (demi_bind_ret se) 0) as [E3|E3]; [|left; auto].
  right.
  destruct (Z.eqb_spec (demi_listen_ret se) 0) as [E4|E4]; [|left; auto 10].
  right.
  destruct (Z.eqb_spec (demi_accept_ret se) 0) as [E5|E5]; [|left; auto 10].
  right. repeat (split; [assumption|]). reflexivity.
Qed.

(** X1.  The set-up goes through exactly when [inet_pton] returns 1 and the
    five Demikernel calls return 0.  It then has made the six calls of lines
    30 to 39 in that order, the family and the port 9050 are in [saddr], the
    token of the accept is in slot 0, the other slots are 0 and [nqts] is
    1. *)
Theorem setup_succeeds_iff (se : setup_env) :
  (exists st, snd (setup se) = Ok st) <->
  (inet_pton_ret se = 1 /\ demi_init_ret se = 0 /\ demi_socket_ret se = 0 /\
   demi_bind_ret se = 0 /\ demi_listen_ret se = 0 /\ demi_accept_ret se = 0 /\
   setup se = (setup_calls se, Ok (state_of_setup se))).
Proof.
  split.
  - intros [st Hs].
    destruct (setup_cases se)
      as [(_ & Hr)|[(_ & _ & Hr)|[(_ & _ & _ & Hr)|[(_ & _ & _ & _ & Hr)
         |[(_ & _ & _ & _ & _ & Hr)|[(_ & _ & _ & _ & _ & _ & Hr)|Hok]]]]]];
      try (rewrite Hr in Hs; discriminate Hs).
    exact Hok.
  - intros (_ & _ & _ & _ & _ & _ & Hr). rewrite Hr. eexists. reflexivity.
Qed.


(** ** Runs of the loop *)

Lemma loop_body_not_blocked e st st' : snd (loop_body e st) <> Stop (Blocked st').
Proof. unfold_step. repeat case_match; simplify_eq; cbn [snd]; discriminate. Qed.

(** A run that is still waiting has gone through all its iterations. *)
Lemma reactor_blocked_inv e es st t st' :
  reactor (e :: es) st = (t, Stop (Blocked st')) ->
  exists t1 st1 t2,
    loop_body e st = (t1, Ok st1) /\
    reactor es st1 = (t2, Stop (Blocked st')) /\ t = t1 ++ t2.
Proof.
  intros Hr. destruct (loop_body e st) as [t1 [st1|s]] eqn:Hb.
  - rewrite (reactor_step_ok _ _ _ _ _ Hb) in Hr.
    destruct (reactor es st1) as [t2 r2] eqn:Hr1. cbn [fst snd] in Hr.
    injection Hr as <- ->. exists t1, st1, t2. auto.
  - rewrite (reactor_step_stop _ _ _ _ _ Hb) in Hr. injection Hr as <- ->.
    exfalso. apply (loop_body_not_blocked e st st'). rewrite Hb. reflexivity.
Qed.

(** Runs compose.  When the loop, given the completions [es1], is
    waiting for the next one in state [st'], giving it [es1 ++ es2] is the
    run on [es1] followed by the run on [es2] from [st']. *)
Lemma reactor_app (es1 es2 : list iter_env) (st st' : state) (t : list event) :
  reactor es1 st = (t, Stop (Blocked st')) ->
  reactor (es1 ++ es2) st = (t ++ fst (reactor es2 st'), snd (reactor es2 st')).
Proof.
  revert st t. induction es1 as [|e es1 IH]; intros st t Hr.
  - rewrite reactor_nil in Hr. injection Hr as <- <-.
    cbn [app]. destruct (reactor es2 st); reflexivity.
  - destruct (reactor_blocked_inv _ _ _ _ _ Hr) as (t1 & st1 & t2 & Hb & Hr1 & ->).
    cbn [app]. rewrite (reactor_step_ok _ _ _ _ _ Hb).
    rewrite (IH _ _ Hr1). cbn [fst snd]. rewrite app_assoc. reflexivity.
Qed.

(** A stop is final.  Once an assertion has failed or an access has left
    an array, the completions that follow are not looked at. *)
Lemma reactor_stop_is_final (es1 es2 : list iter_env) (st : state)
    (t : list event) (s : stop) :
  reactor es1 st = (t, Stop s) ->
  (forall st', s <> Blocked st') ->
  reactor (es1 ++ es2) st = (t, Stop s).
Proof.
  revert st t. induction es1 as [|e es1 IH]; intros st t Hr Hs.
  - rewrite reactor_nil in Hr. injection Hr as <- <-.
    exfalso. exact (Hs st eq_refl).
  - cbn [app]. destruct (loop_body e st) as [t1 [st1|s1]] eqn:Hb.
    + rewrite (reactor_step_ok _ es1 _ _ _ Hb) in Hr.
      rewrite (reactor_step_ok _ (es1 ++ es2) _ _ _ Hb).
      destruct (reactor es1 st1) as [t2 r2] eqn:Hr1. cbn [fst snd] in Hr.
      injection Hr as <- ->. rewrite (IH _ _ Hr1 Hs). reflexivity.
    + rewrite (reactor_step_stop _ es1 _ _ _ Hb) in Hr.
      rewrite (reactor_step_stop _ (es1 ++ es2) _ _ _ Hb). exact Hr.
Qed.

(** ** The token array along a run *)

Lemma pop_calls_app (t t' : list event) :
  pop_calls (t ++ t') = pop_calls t ++ pop_calls t'.
Proof.
  induction t as [|ev t IH]; [reflexivity|].
  destruct ev; cbn [pop_calls app]; rewrite ?IH; reflexivity.
Qed.

Lemma accept_completions_cons_true e es :
  is_accept_completion e = true ->
  accept_completions (e :: es) = e :: accept_completions es.
Proof. intros He. unfold accept_completions. rewrite filter_cons_True; auto. Qed.

Lemma accept_completions_cons_false e es :
  is_accept_completion e = false ->
  accept_completions (e :: es) = accept_completions es.
Proof.
  intros He. unfold accept_completions. rewrite filter_cons_False; [reflexivity|].
  rewrite He. discriminate.
Qed.

(** The locals and the trace of a run that is still waiting, from the
    locals it started with and the accept completions it was given. *)
Lemma reactor_blocked_shape es : forall st t st',
  length (qts st) = Z.to_nat NQTOKEN ->
  0 <= nqts st <= NQTOKEN ->
  reactor es st = (t, Stop (Blocked st')) ->
  nqts st' = nqts st + Z.of_nat (length (accept_completions es)) /\
  nqts st' <= NQTOKEN /\
  qts st' = take (Z.to_nat (nqts st)) (qts st)
            ++ map demi_pop_qt (accept_completions es)
            ++ drop (Z.to_nat (nqts st) + length (accept_completions es)) (qts st) /\
  saddr st' = saddr st /\ sockqd st' = sockqd st /\
  count is_stdout_accept t = length (accept_completions es) /\
  pop_calls t
  = zip (seqZ (nqts st) (Z.of_nat (length (accept_completions es))))
        (map (fun e => qr_value_ares_qd (wait_qr e)) (accept_completions es)).
Proof.
  induction es as [|e es IH]; intros st t st' Hlen Hn Hr.
  - rewrite reactor_nil in Hr. injection Hr as <- <-.
    cbn [accept_completions filter list_filter length map app].
    rewrite Nat.add_0_r, take_drop. repeat split; try reflexivity; lia.
  - destruct (reactor_blocked_inv _ _ _ _ _ Hr) as (t1 & st1 & t2 & Hb & Hr1 & ->).
    destruct (loop_body_ok_cases _ _ _ _ Hb)
      as [_ [(Ha & _ & Hslot & -> & ->)|(Ha & -> & Hout)]].
    + rewrite (accept_completions_cons_true _ _ Ha).
      apply IH in Hr1 as (Hn' & Hle & Hq & Hsa & Hso & Hc & Hp);
        [|cbn [qts set_qts]; rewrite length_insert; exact Hlen
         |cbn [nqts set_qts set_nqts]; lia].
      cbn [qts nqts saddr sockqd set_qts set_nqts set_qr] in Hn', Hq, Hsa, Hso, Hp.
      cbn [length map].
      assert (Hlt : (Z.to_nat (nqts st) < length (qts st))%nat) by lia.
      replace (Z.to_nat (nqts st + 1)) with (S (Z.to_nat (nqts st))) in Hq by lia.
      rewrite (take_S_r _ _ (demi_pop_qt e)) in Hq
        by (apply list_lookup_insert_eq; exact Hlt).
      rewrite take_insert_ge in Hq by lia.
      rewrite drop_insert_lt in Hq by lia.
      repeat split.
      * lia.
      * exact Hle.
      * rewrite Hq, <- app_assoc. cbn [app].
        replace (Z.to_nat (nqts st) + S (length (accept_completions es)))%nat
          with (S (Z.to_nat (nqts st)) + length (accept_completions es))%nat by lia.
        reflexivity.
      * exact Hsa.
      * exact Hso.
      * rewrite count_app, Hc. reflexivity.
      * rewrite pop_calls_app, Hp. cbn [pop_calls app].
        rewrite (seqZ_cons (nqts st)) by lia. cbn [zip zip_with].
        replace (Z.pred (Z.of_nat (S (length (accept_completions es)))))
          with (Z.of_nat (length (accept_completions es))) by lia.
        reflexivity.
    + rewrite (accept_completions_cons_false _ _ Ha).
      apply IH in Hr1 as (Hn' & Hle & Hq & Hsa & Hso & Hc & Hp);
        [|exact Hlen|exact Hn].
      cbn [qts nqts saddr sockqd set_qr] in Hn', Hq, Hsa, Hso, Hp.
      assert (Ht1 : count is_stdout_accept t1 = 0%nat /\ pop_calls t1 = []).
      { destruct Hout as [(_ & seg & _ & ->)|(_ & ->)]; split; reflexivity. }
      destruct Ht1 as [Hc1 Hp1].
      repeat split; auto.
      * rewrite count_app, Hc1, Hc. reflexivity.
      * rewrite pop_calls_app, Hp1, Hp. reflexivity.
Qed.

(** X5.  The token array of a run that is still waiting.  Started with
    [nqts] inside the array, the loop has put the tokens of the receives it
    issued, one for each accept completion and in the order of the
    completions, in the slots from [nqts] on; the slots before and after
    them are as they were, and [nqts] has grown by the number of accept
    completions without passing [NQTOKEN]. *)
Theorem token_array_of_run (es : list iter_env) (st st' : state) (t : list event) :
  length (qts st) = Z.to_nat NQTOKEN ->
  0 <= nqts st <= NQTOKEN ->
  reactor es st = (t, Stop (Blocked st')) ->
  qts st' = take (Z.to_nat (nqts st)) (qts st)
            ++ map demi_pop_qt (accept_completions es)
            ++ drop (Z.to_nat (nqts st) + length (accept_completions es)) (qts st) /\
  nqts st' = nqts st + Z.of_nat (length (accept_completions es)) /\
  nqts st' <= NQTOKEN.
Proof.
  intros Hlen Hn Hr.
  destruct (reactor_blocked_shape es st t st' Hlen Hn Hr) as (Hn' & Hle & Hq & _).
  auto.
Qed.

(** X6.  The receives of a run that is still waiting.  The loop has printed
    [accept] once for each accept completion and has issued exactly one
    receive for each, on the queue the completion carries, into the slots
    [nqts], [nqts + 1], ... in the order of the completions; no other
    receive was issued. *)
Theorem receives_follow_accepts (es : list iter_env) (st st' : state) (t : list event) :
  length (qts st) = Z.to_nat NQTOKEN ->
  0 <= nqts st <= NQTOKEN ->
  reactor es st = (t, Stop (Blocked st')) ->
  count is_stdout_accept t = length (accept_completions es) /\
  pop_calls t
  = zip (seqZ (nqts st) (Z.of_nat (length (accept_completions es))))
        (map (fun e => qr_value_ares_qd (wait_qr e)) (accept_completions es)).
Proof.
  intros Hlen Hn Hr.
  destruct (reactor_blocked_shape es st t st' Hlen Hn Hr)
    as (_ & _ & _ & _ & _ & Hc & Hp).
  auto.
Qed.

(** ** The whole program *)

Lemma state_of_setup_length se : length (qts (state_of_setup se)) = Z.to_nat NQTOKEN.
Proof. cbn [state_of_setup qts length]. rewrite length_replicate. reflexivity. Qed.

(** A program that is waiting in the loop went through the set-up. *)
Lemma main_blocked_inv se es st' :
  snd (main se es) = Stop (Blocked st') ->
  exists t, reactor es (state_of_setup se) = (t, Stop (Blocked st')).
Proof.
  intros Hm.
  destruct (setup_cases se)
    as [(_ & Hr)|[(_ & _ & Hr)|[(_ & _ & _ & Hr)|[(_ & _ & _ & _ & Hr)
       |[(_ & _ & _ & _ & _ & Hr)|[(_ & _ & _ & _ & _ & _ & Hr)
       |(_ & _ & _ & _ & _ & _ & Hr)]]]]]];
    try (rewrite (main_setup_stop _ es _ _ Hr) in Hm; discriminate Hm).
  destruct (main_setup_ok se es _ _ Hr) as (s & Hmain & Hre & _).
  rewrite Hmain in Hm. cbn [snd] in Hm. injection Hm as ->.
  exists (fst (reactor es (state_of_setup se))).
  destruct (reactor es (state_of_setup se)) as [t r]. cbn [fst snd] in *.
  rewrite Hre. reflexivity.
Qed.

(** X7.  The locals of a program that is waiting in the loop.  Slot 0 holds
    the token of the accept issued by the set-up, the next slots hold the
    tokens of the receives in the order of the accept completions, every
    other slot is 0 and was never written; [nqts] is one more than the
    number of accept completions; the listening socket and the port are
    those of the set-up. *)
Theorem locals_of_running_program (se : setup_env) (es : list iter_env) (st' : state) :
  snd (main se es) = Stop (Blocked st') ->
  qts st' = demi_accept_qt se :: map demi_pop_qt (accept_completions es)
            ++ replicate (Z.to_nat NQTOKEN - 1 - length (accept_completions es)) 0 /\
  length (qts st') = Z.to_nat NQTOKEN /\
  nqts st' = 1 + Z.of_nat (length (accept_completions es)) /\
  sockqd st' = demi_socket_qd se /\
  sin_port (saddr st') = 9050.
Proof.
  intros Hm. destruct (main_blocked_inv se es st' Hm) as [t Hr].
  destruct (reactor_blocked_shape es _ t st' (state_of_setup_length se)
              ltac:(cbn; unfold NQTOKEN; lia) Hr)
    as (Hn & Hle & Hq & Hsa & Hso & _).
  cbn [nqts state_of_setup qts] in Hn, Hle, Hq.
  change (Z.to_nat 1) with 1%nat in Hq. cbn [firstn skipn Nat.add app] in Hq.
  rewrite take_0 in Hq. cbn [app] in Hq.
  rewrite drop_replicate in Hq.
  replace (Z.to_nat (NQTOKEN - 1) - length (accept_completions es))%nat
    with (Z.to_nat NQTOKEN - 1 - length (accept_completions es))%nat in Hq
    by (unfold NQTOKEN; lia).
  split; [exact Hq|]. split.
  - rewrite Hq. cbn [length]. rewrite length_app, List.length_map, length_replicate.
    unfold NQTOKEN in *. lia.
  - split; [exact Hn|]. rewrite Hsa, Hso. split; reflexivity.
Qed.

(** X8.  The capacity of the program.  A program that is still waiting in the
    loop has been given fewer than [NQTOKEN] accept completions: with the
    accept token in slot 0 there is room for [NQTOKEN - 1] receives, and
    the loop does not survive the accept completion after them. *)
Theorem running_program_is_below_capacity (se : setup_env) (es : list iter_env)
    (st' : state) :
  snd (main se es) = Stop (Blocked st') ->
  Z.of_nat (length (accept_completions es)) <= NQTOKEN - 1.
Proof.
  intros Hm. destruct (main_blocked_inv se es st' Hm) as [t Hr].
  destruct (reactor_blocked_shape es _ t st' (state_of_setup_length se)
              ltac:(cbn; unfold NQTOKEN; lia) Hr)
    as (Hn & Hle & _).
  cbn [nqts state_of_setup] in Hn. lia.
Qed.

(** ** What the loop does not look at, and what it does not do *)

(** X9.  The index [demi_wait_any] reports is stored in [offset] and not
    used: with another index the iteration makes the same calls, prints the
    same line, ends the same way and leaves the same token array and
    [nqts]. *)
Theorem completion_index_is_ignored (e : iter_env) (st : state) (off : Z) :
  fst (loop_body (with_offset off e) st) = fst (loop_body e st) /\
  same_tokens (snd (loop_body (with_offset off e) st)) (snd (loop_body e st)).
Proof.
  unfold_step.
  cbn [with_offset demi_wait_any_ret wait_qr wait_offset demi_pop_ret demi_pop_qt
       qr set_qr nqts set_nqts qts].
  repeat case_match; simplify_eq; cbn [fst snd same_tokens]; auto.
Qed.

(** X10.  The segment count is not read.  With another [sga_numsegs] the
    iteration makes the same calls, prints the same line (segment 0 of a
    receive completion, whatever the count), ends the same way and leaves the
    same token array and [nqts]. *)
Theorem segment_count_is_ignored (e : iter_env) (st : state) (n : Z) :
  fst (loop_body (with_numsegs n e) st) = fst (loop_body e st) /\
  same_tokens (snd (loop_body (with_numsegs n e) st)) (snd (loop_body e st)).
Proof.
  unfold_step.
  cbn [with_numsegs demi_wait_any_ret wait_qr wait_offset demi_pop_ret demi_pop_qt
       qr set_qr nqts set_nqts qts qr_opcode qr_value_ares_qd qr_value_sga sga_segs].
  repeat case_match; simplify_eq; cbn [fst snd same_tokens]; auto.
Qed.

Lemma loop_body_events e st :
  Forall (fun ev => is_loop_event ev = true) (fst (loop_body e st)).
Proof.
  unfold_step. repeat case_match; simplify_eq; cbn [fst app];
    repeat (apply Forall_cons; split; [reflexivity|]); apply Forall_nil_2.
Qed.

(** X11.  The loop only waits, issues receives and prints.  Whatever the
    completions are, it never calls [inet_pton], [demi_init], [demi_socket],
    [demi_bind], [demi_listen], [demi_accept] or [demi_sgafree]. *)
Theorem loop_only_waits_pops_and_prints (es : list iter_env) (st : state) :
  Forall (fun ev => is_loop_event ev = true) (fst (reactor es st)).
Proof.
  revert st. induction es as [|e es IH]; intros st.
  - rewrite reactor_nil. apply Forall_nil_2.
  - pose proof (loop_body_events e st) as He.
    destruct (loop_body e st) as [t [st1|s]] eqn:Hb; cbn [fst] in He.
    + rewrite (reactor_step_ok _ _ _ _ _ Hb). cbn [fst].
      apply Forall_app. split; [exact He|apply IH].
    + rewrite (reactor_step_stop _ _ _ _ _ Hb). exact He.
Qed.

Lemma loop_body_stdout e st :
  (count is_stdout (fst (loop_body e st)) <= 1)%nat /\
  (forall st1, snd (loop_body e st) = Ok st1 ->
     count is_stdout (fst (loop_body e st)) = 1%nat).
Proof.
  unfold_step. repeat case_match; simplify_eq; cbn [fst snd app];
    (split; [vm_compute; lia|]); intros st1 Hs; try discriminate Hs; reflexivity.
Qed.

(** X12.  One line for each completion.  The loop prints at most one line
    for each completion it is given; when it has dispatched all of them
    and is waiting again, it has printed exactly one line for each. *)
Theorem one_line_per_completion (es : list iter_env) (st : state) :
  (count is_stdout (fst (reactor es st)) <= length es)%nat /\
  (forall st', snd (reactor es st) = Stop (Blocked st') ->
     count is_stdout (fst (reactor es st)) = length es).
Proof.
  revert st. induction es as [|e es IH]; intros st.
  - rewrite reactor_nil. cbn. split; [lia|]. intros _ _. reflexivity.
  - destruct (loop_body_stdout e st) as [Hle Heq].
    destruct (loop_body e st) as [t [st1|s]] eqn:Hb; cbn [fst snd] in Hle, Heq.
    + rewrite (reactor_step_ok _ _ _ _ _ Hb). cbn [fst snd length].
      rewrite count_app, (Heq st1 eq_refl).
      destruct (IH st1) as [H1 H3]. split; [lia|].
      intros st' Hs. rewrite (H3 st' Hs). reflexivity.
    + rewrite (reactor_step_stop _ _ _ _ _ Hb). cbn [fst snd length].
      split; [lia|].
      intros st' Hs. injection Hs as ->.
      exfalso. apply (loop_body_not_blocked e st st'). rewrite Hb. reflexivity.
Qed.

End Runs.

(** ** The further properties on the sample inputs *)


(** X5 on an accept, a receive and an unknown completion after the set-up:
    token 200 is in slot 1. *)
Lemma token_array_of_run_witness :
  @reactor sample_header [accept_completion; recv_completion; push_completion]
    state_after_setup
  = (fst (@reactor sample_header
            [accept_completion; recv_completion; push_completion] state_after_setup),
     Stop (Blocked (set_qr (wait_qr push_completion) 2 state_after_accept))) /\
  (qts (set_qr (wait_qr push_completion) 2 state_after_accept)
   = take (Z.to_nat 1) (qts state_after_setup) ++ [200]
     ++ drop (Z.to_nat 1 + 1) (qts state_after_setup) /\
   nqts (set_qr (wait_qr push_completion) 2 state_after_accept) = 1 + 1 /\
   nqts (set_qr (wait_qr push_completion) 2 state_after_accept) <= NQTOKEN).
Proof.
  assert (Hr : @reactor sample_header
                 [accept_completion; recv_completion; push_completion]
                 state_after_setup
               = (fst (@reactor sample_header
                         [accept_completion; recv_completion; push_completion]
                         state_after_setup),
                  Stop (Blocked (set_qr (wait_qr push_completion) 2
                                   state_after_accept)))).
  { vm_compute. reflexivity. }
  split; [exact Hr|].
  assert (Hlen : length (qts state_after_setup) = Z.to_nat NQTOKEN).
  { vm_compute. reflexivity. }
  assert (Hn : 0 <= nqts state_after_setup <= NQTOKEN).
  { unfold NQTOKEN. cbn. lia. }
  exact (@token_array_of_run sample_header
           [accept_completion; recv_completion; push_completion]
           state_after_setup _ _ Hlen Hn Hr).
Defined.

(** X6 on the same run: one [accept] line, one receive, on queue 5 into
    slot 1. *)
Lemma receives_follow_accepts_witness :
  count is_stdout_accept
    (fst (@reactor sample_header
            [accept_completion; recv_completion; push_completion] state_after_setup))
  = 1%nat /\
  pop_calls
    (fst (@reactor sample_header
            [accept_completion; recv_completion; push_completion] state_after_setup))
  = zip (seqZ 1 1) [5].
Proof.
  assert (Hlen : length (qts state_after_setup) = Z.to_nat NQTOKEN).
  { vm_compute. reflexivity. }
  assert (Hn : 0 <= nqts state_after_setup <= NQTOKEN).
  { unfold NQTOKEN. cbn. lia. }
  assert (Hr : @reactor sample_header
                 [accept_completion; recv_completion; push_completion]
                 state_after_setup
               = (fst (@reactor sample_header
                         [accept_completion; recv_completion; push_completion]
                         state_after_setup),
                  Stop (Blocked (set_qr (wait_qr push_completion) 2
                                   state_after_accept)))).
  { vm_compute. reflexivity. }
  exact (@receives_follow_accepts sample_header
           [accept_completion; recv_completion; push_completion]
           state_after_setup _ _ Hlen Hn Hr).
Defined.

(** X7 on [setup_ok] followed by an accept and a receive completion. *)
Lemma locals_of_running_program_witness :
  snd (@main sample_header setup_ok [accept_completion; recv_completion])
  = Stop (Blocked (set_qr (wait_qr recv_completion) 1 state_after_accept)) /\
  (qts (set_qr (wait_qr recv_completion) 1 state_after_accept)
   = 100 :: [200] ++ replicate (Z.to_nat NQTOKEN - 1 - 1) 0 /\
   length (qts (set_qr (wait_qr recv_completion) 1 state_after_accept))
   = Z.to_nat NQTOKEN /\
   nqts (set_qr (wait_qr recv_completion) 1 state_after_accept) = 1 + 1 /\
   sockqd (set_qr (wait_qr recv_completion) 1 state_after_accept) = 4 /\
   sin_port (saddr (set_qr (wait_qr recv_completion) 1 state_after_accept)) = 9050).
Proof.
  assert (Hm : snd (@main sample_header setup_ok [accept_completion; recv_completion])
               = Stop (Blocked (set_qr (wait_qr recv_completion) 1
                                  state_after_accept))).
  { vm_compute. reflexivity. }
  split; [exact Hm|].
  exact (@locals_of_running_program sample_header setup_ok
           [accept_completion; recv_completion] _ Hm).
Defined.

(** X8 on the same program: one accept completion, room for 1023. *)
Lemma running_program_is_below_capacity_witness :
  snd (@main sample_header setup_ok [accept_completion; recv_completion])
  = Stop (Blocked (set_qr (wait_qr recv_completion) 1 state_after_accept)) /\
  Z.of_nat (length (@accept_completions sample_header
                      [accept_completion; recv_completion])) <= NQTOKEN - 1.
Proof.
  assert (Hm : snd (@main sample_header setup_ok [accept_completion; recv_completion])
               = Stop (Blocked (set_qr (wait_qr recv_completion) 1
                                  state_after_accept))).
  { vm_compute. reflexivity. }
  split; [exact Hm|].
  exact (@running_program_is_below_capacity sample_header setup_ok
           [accept_completion; recv_completion] _ Hm).
Defined.
